(** * GitHub certification ranking: the fetch pipeline

    A shallow embedding of [fetch_country.py] (paginated single-country
    fetch, external-badge lookup, CSV writer, command line) and of
    [fetch_data.py] (country enumeration, per-country unit, tally and exit
    code), with the properties the specification states about them.

    Conventions of the embedding:
    - values decoded from JSON are the inductive [json]; a JSON number is an
      integer (Python [int], unbounded, hence [Z]); numbers with a fraction
      are outside the model;
    - a Python [str] is a [string] of bytes (its UTF-8 encoding);
      [str.lower()] and [str.title()], which follow the Unicode tables, are
      parameters of the code that calls them; [ascii_lower] and
      [ascii_title] are what they compute on a string of ASCII characters;
    - a path names a directory or a file as it is written, without
      normalisation; permissions, quotas and devices are outside the model;
    - an exception is a value of [exn], a computation that may raise returns
      [res]; a computation that also talks to the network returns [M], which
      carries the list of requests it sent;
    - [print] calls are not modelled;
    - a loop that may run forever takes fuel and returns [None] when the fuel
      runs out. *)

From Stdlib Require Import Ascii.
From stdpp Require Import base decidable option list strings pretty gmap sorting.

Local Open Scope string_scope.
Local Open Scope list_scope.
Local Open Scope nat_scope.

(** ** Values *)

#[local] Set Warnings "-register-all".

Inductive json : Type :=
| JNull
| JBool (b : bool)
| JInt (z : Z)
| JStr (s : string)
| JList (l : list json)
| JDict (d : list (string * json)).

(** A [dict] keeps its items in insertion order. *)
Abbreviation dict := (list (string * json)).

Inductive exn : Type :=
| RequestException
| HTTPError
| JSONDecodeError
| AttributeError
| TypeError
| FileNotFoundError
| FileExistsError
| NotADirectoryError
| IsADirectoryError.

Inductive res (A : Type) : Type :=
| Ok (a : A)
| Raise (e : exn).
Arguments Ok {A} a.
Arguments Raise {A} e.

Definition res_bind {A B} (r : res A) (f : A → res B) : res B :=
  match r with
  | Ok a => f a
  | Raise e => Raise e
  end.

Declare Scope res_scope.
Delimit Scope res_scope with res.
Notation "'let?' x ':=' r 'in' k" := (res_bind r (fun x => k))
  (at level 10, x name, r at level 100, k at level 200) : res_scope.

(** ** Python built-ins used by the two scripts *)

Fixpoint dict_get (k : string) (d : dict) : option json :=
  match d with
  | [] => None
  | (k', v) :: d' => if String.eqb k k' then Some v else dict_get k d'
  end.

(** [d[k] = v]: an existing key keeps its position, a new one goes last. *)
Fixpoint dict_set (k : string) (v : json) (d : dict) : dict :=
  match d with
  | [] => [(k, v)]
  | (k', v') :: d' =>
      if String.eqb k k' then (k, v) :: d' else (k', v') :: dict_set k v d'
  end.

(** [obj.get(k, default)]; only a dict has the method. *)
Definition py_get (obj : json) (k : string) (default : json) : res json :=
  match obj with
  | JDict d => Ok (from_option id default (dict_get k d))
  | _ => Raise AttributeError
  end.

(** [obj[k] = v] *)
Definition py_setitem (obj : json) (k : string) (v : json) : res json :=
  match obj with
  | JDict d => Ok (JDict (dict_set k v d))
  | _ => Raise TypeError
  end.

(** Truth value of an object, as [if obj:] and [not obj] take it. *)
Definition py_truthy (v : json) : bool :=
  match v with
  | JNull => false
  | JBool b => b
  | JInt z => negb (z =? 0)%Z
  | JStr s => negb (String.eqb s "")
  | JList l => negb (bool_decide (length l = 0))
  | JDict d => negb (bool_decide (length d = 0))
  end.

(** The items a [for] loop sees. *)
Definition py_iter (v : json) : res (list json) :=
  match v with
  | JList l => Ok l
  | JDict d => Ok (map (fun kv => JStr kv.1) d)
  | JStr s => Ok (map (fun c => JStr (String c "")) (String.list_ascii_of_string s))
  | _ => Raise TypeError
  end.

(** [v == s] for a string literal [s]. *)
Definition py_eq_str (v : json) (s : string) : bool :=
  match v with
  | JStr s' => String.eqb s' s
  | _ => false
  end.

Fixpoint substringb (needle hay : string) : bool :=
  String.prefix needle hay ||
  match hay with
  | "" => false
  | String _ hay' => substringb needle hay'
  end.

(** [needle in v] for a string literal [needle]. *)
Definition py_in (needle : string) (v : json) : res bool :=
  match v with
  | JStr s => Ok (substringb needle s)
  | JList l => Ok (existsb (fun x => py_eq_str x needle) l)
  | JDict d => Ok (existsb (fun kv => String.eqb kv.1 needle) d)
  | _ => Raise TypeError
  end.

(** [v + n] for an int [n]; [bool] is a subclass of [int]. *)
Definition py_add_int (v : json) (n : Z) : res json :=
  match v with
  | JInt z => Ok (JInt (z + n))
  | JBool b => Ok (JInt ((if b then 1 else 0) + n))
  | _ => Raise TypeError
  end.

(** [s.replace(c, by)] for a one-character [c]. *)
Fixpoint replace_char (c : ascii) (by_ : string) (s : string) : string :=
  match s with
  | "" => ""
  | String a s' =>
      if Ascii.eqb a c then by_ +:+ replace_char c by_ s'
      else String a (replace_char c by_ s')
  end.

Definition is_upper (a : ascii) : bool :=
  (65 <=? nat_of_ascii a) && (nat_of_ascii a <=? 90).
Definition is_lower (a : ascii) : bool :=
  (97 <=? nat_of_ascii a) && (nat_of_ascii a <=? 122).
Definition to_lower (a : ascii) : ascii :=
  if is_upper a then ascii_of_nat (nat_of_ascii a + 32) else a.
Definition to_upper (a : ascii) : ascii :=
  if is_lower a then ascii_of_nat (nat_of_ascii a - 32) else a.

(** [s.lower()] for a string [s] of ASCII characters. *)
Fixpoint ascii_lower (s : string) : string :=
  match s with
  | "" => ""
  | String a s' => String (to_lower a) (ascii_lower s')
  end.

(** [s.title()] for a string [s] of ASCII characters: a letter after a
    letter is lowered, any other letter is raised. *)
Fixpoint ascii_title_go (previous_is_cased : bool) (s : string) : string :=
  match s with
  | "" => ""
  | String a s' =>
      String (if previous_is_cased then to_lower a else to_upper a)
             (ascii_title_go (is_upper a || is_lower a) s')
  end.
Definition ascii_title (s : string) : string := ascii_title_go false s.

(** Loops over a list whose body may raise. *)
Fixpoint filter_res {A} (p : A → res bool) (l : list A) : res (list A) :=
  match l with
  | [] => Ok []
  | x :: l' =>
      (let? b := p x in
       let? kept := filter_res p l' in
       Ok (if b then x :: kept else kept))%res
  end.

(** ** The network

    [requests.get(url, timeout=t)], [raise_for_status()] and [json()] are
    taken together: the remote service either makes one of the three raise
    or hands back the decoded body. *)

Inductive response : Type :=
| ConnectionFailed          (* [requests.get] raised: timeout, transport *)
| BadStatus                 (* [raise_for_status] raised *)
| BadBody                   (* [json()] raised: the body does not parse *)
| Body (data : json).

Record request : Type := Request { req_url : string; req_timeout : Z }.

(** What comes back for a request on the wire: nothing ([requests.get]
    raises), or a response with its status code and its body, which parses
    as JSON or does not. *)
Inductive reply : Type :=
| NoReply
| Reply (status_code : Z) (body : option json).

(** [raise_for_status()] raises for the status codes 400 to 599 and for no
    other; [json()] raises when the body does not parse. *)
Definition requests_outcome (r : reply) : response :=
  match r with
  | NoReply => ConnectionFailed
  | Reply status_code body =>
      if (400 <=? status_code)%Z && (status_code <? 600)%Z then BadStatus
      else match body with
           | None => BadBody
           | Some data => Body data
           end
  end.

(** A computation that sends requests: its result and the requests sent,
    oldest first. *)
Definition M (A : Type) : Type := res A * list request.

Definition ret {A} (a : A) : M A := (Ok a, []).
Definition lift {A} (r : res A) : M A := (r, []).
Definition bind {A B} (m : M A) (f : A → M B) : M B :=
  match m.1 with
  | Ok a => ((f a).1, m.2 ++ (f a).2)
  | Raise e => (Raise e, m.2)
  end.

Declare Scope net_scope.
Delimit Scope net_scope with net.
Notation "'let*' x ':=' m 'in' k" := (bind m (fun x => k))
  (at level 10, x name, m at level 100, k at level 200) : net_scope.

Fixpoint mapM {A B} (f : A → M B) (l : list A) : M (list B) :=
  match l with
  | [] => ret []
  | x :: l' =>
      (let* y := f x in
       let* ys := mapM f l' in
       ret (y :: ys))%net
  end.

(** ** fetch_country.py: fetching one country *)

(** The file system, as far as the writer uses it: the directories that
    exist and, per path, the rows of the table stored there. A row holds
    the objects handed to [writerow], before [csv] renders them.
    Permissions, quotas and limits on names are not part of it. *)
Record filesystem : Type := Filesystem {
  fs_dirs : gset string;
  fs_files : gmap string (list (list json))
}.

(** The directories above [path]: its prefixes that end before a "/"; the
    empty prefix is the root. *)
Fixpoint ancestors (path : string) : list string :=
  match path with
  | "" => []
  | String c rest =>
      (if Ascii.eqb c "/" then [""] else []) ++ map (String c) (ancestors rest)
  end.

Definition is_file (fs : filesystem) (path : string) : bool :=
  bool_decide (is_Some (fs_files fs !! path)).

Definition is_dir (fs : filesystem) (path : string) : bool :=
  String.eqb path "" || bool_decide (path ∈ fs_dirs fs).

(** [os.makedirs(path, exist_ok=True)]: the directory and those above it
    exist afterwards; it raises when the path is empty or when it, or a
    directory above it, is a regular file. *)
Definition makedirs (path : string) (fs : filesystem) : res filesystem :=
  if String.eqb path "" then Raise FileNotFoundError
  else if is_file fs path then Raise FileExistsError
  else if existsb (is_file fs) (ancestors path) then Raise NotADirectoryError
  else Ok (Filesystem (list_to_set (path :: ancestors path) ∪ fs_dirs fs)
                      (fs_files fs)).

(** [open(path, 'w')]: the file is created or emptied; it raises when the
    path is a directory and when one of the directories above it is a
    regular file or does not exist. *)
Definition open_w (path : string) (fs : filesystem) : res filesystem :=
  if bool_decide (path ∈ fs_dirs fs) then Raise IsADirectoryError
  else if existsb (is_file fs) (ancestors path) then Raise NotADirectoryError
  else if forallb (is_dir fs) (ancestors path)
  then Ok (Filesystem (fs_dirs fs) (<[path := []]> (fs_files fs)))
  else Raise FileNotFoundError.

Module FetchCountry.

Section WithNetwork.

(** The remote service: what a request is answered with. *)
Variable http : request → response.

(** [repr] of a list or a dict, as an f-string renders it. *)
Variable py_repr : json → string.

(** [str.lower()] *)
Variable str_lower : string → string.

(** [f"{v}"] *)
Definition py_str (v : json) : string :=
  match v with
  | JNull => "None"
  | JBool true => "True"
  | JBool false => "False"
  | JInt z => pretty z
  | JStr s => s
  | _ => py_repr v
  end.

(** [requests.get(url, timeout=t)], [raise_for_status()], [json()]. *)
Definition requests_get_json (url : string) (timeout : Z) : M json :=
  let rq := Request url timeout in
  (match http rq with
   | ConnectionFailed => Raise RequestException
   | BadStatus => Raise HTTPError
   | BadBody => Raise JSONDecodeError
   | Body data => Ok data
   end, [rq]).

Definition external_badges_url (user_id : json) : string :=
  "https://www.credly.com/api/v1/users/" +:+ py_str user_id
  +:+ "/external_badges/open_badges/public?page=1&page_size=48".

(** One turn of the loop over the badges: does this badge count? *)
Definition is_github_badge (badge : json) : res bool :=
  (let? external_badge := py_get badge "external_badge" (JDict []) in
   let? badge_name := py_get external_badge "badge_name" (JStr "") in
   let? issuer_name := py_get external_badge "issuer_name" (JStr "") in
   if py_eq_str issuer_name "Microsoft" then py_in "GitHub" badge_name
   else Ok false)%res.

(** The [try] block of [fetch_github_external_badges]. *)
Definition external_badges_try (user_id : json) : M Z :=
  (let* data := requests_get_json (external_badges_url user_id) 10 in
   lift (let? items := py_get data "data" (JList []) in
         let? badges := py_iter items in
         let? github_badges := filter_res is_github_badge badges in
         Ok (Z.of_nat (length github_badges)))%res)%net.

(** [except Exception: return 0]: the count, and the requests sent. *)
Definition fetch_github_external_badges (user_id : json) : Z * list request :=
  match external_badges_try user_id with
  | (Ok n, sent) => (n, sent)
  | (Raise _, sent) => (0%Z, sent)
  end.

Definition base_url (country : string) : string :=
  "https://www.credly.com/api/v1/directory?organization_id=63074953-290b-4dce-86ce-ea04b4187219&sort=alphabetical&filter%5Blocation_name%5D="
  +:+ replace_char " " "%20" country +:+ "&page=".

Definition page_url (country : string) (page : nat) : string :=
  base_url country +:+ pretty (Z.of_nat page) +:+ "&format=json".

(** The body of [for user in users]; the record is updated in place, the
    updated record is the result. *)
Definition add_external_badges (user : json) : M json :=
  (let* user_id := lift (py_get user "id" JNull) in
   if py_truthy user_id then
     let* external_count :=
       (let '(n, sent) := fetch_github_external_badges user_id in (Ok n, sent)) in
     let* badge_count := lift (py_get user "badge_count" (JInt 0)) in
     let* total := lift (py_add_int badge_count external_count) in
     lift (py_setitem user "badge_count" total)
   else ret user)%net.

(** The [try] block of the page loop: [None] is the [break] on a page
    without users, [Some users] the users that [extend] appends. *)
Definition fetch_page (country : string) (page : nat) : M (option (list json)) :=
  (let* data := requests_get_json (page_url country page) 30 in
   let* users := lift (py_get data "data" (JList [])) in
   if negb (py_truthy users) then ret None
   else
     let* records := lift (py_iter users) in
     let* records' := mapM add_external_badges records in
     ret (Some records'))%net.

(** [while True]: the accumulated users and the requests sent, or [None]
    when the fuel is used up before the loop is left. *)
Fixpoint fetch_pages (fuel : nat) (country : string) (page : nat)
    (all_users : list json) : option (list json * list request) :=
  match fuel with
  | 0 => None
  | S fuel' =>
      match fetch_page country page with
      | (Ok (Some users), sent) =>
          match fetch_pages fuel' country (S page) (all_users ++ users) with
          | Some (result, sent') => Some (result, sent ++ sent')
          | None => None
          end
      | (Ok None, sent) => Some (all_users, sent)
      | (Raise _, sent) => Some (all_users, sent)
      end
  end.

Definition fetch_country_data (fuel : nat) (country : string)
    : option (list json * list request) :=
  fetch_pages fuel country 1 [].

(** The list handed to [writer.writerow] for one user. *)
Definition csv_row (user : json) : res (list json) :=
  (let? first_name := py_get user "first_name" (JStr "") in
   let? middle_name := py_get user "middle_name" (JStr "") in
   let? last_name := py_get user "last_name" (JStr "") in
   let? badge_count := py_get user "badge_count" (JInt 0) in
   Ok [first_name; middle_name; last_name; badge_count])%res.

(** [for user in users: writer.writerow(...)]: the rows written, and the
    exception that stopped the loop, if any. *)
Fixpoint write_rows (users : list json) : list (list json) * option exn :=
  match users with
  | [] => ([], None)
  | user :: users' =>
      match csv_row user with
      | Ok row =>
          let '(rows, stopped) := write_rows users' in (row :: rows, stopped)
      | Raise e => ([], Some e)
      end
  end.

Definition csv_header : list json :=
  [JStr "first_name"; JStr "middle_name"; JStr "last_name"; JStr "badge_count"].

Definition output_path (output_dir country : string) : string :=
  let file_suffix := replace_char " " "-" (str_lower country) in
  output_dir +:+ "/github-certs-" +:+ file_suffix +:+ ".csv".

(** The path returned (or the exception that [os.makedirs], [open] or the
    [with] block raised), and the file system afterwards. *)
Definition save_to_csv (country : string) (users : list json)
    (output_dir : string) (fs : filesystem) : res string * filesystem :=
  match makedirs output_dir fs with
  | Raise e => (Raise e, fs)
  | Ok fs1 =>
      let output_file := output_path output_dir country in
      match open_w output_file fs1 with
      | Raise e => (Raise e, fs1)
      | Ok fs2 =>
          let '(rows, stopped) := write_rows users in
          let fs3 :=
            Filesystem (fs_dirs fs2)
                       (<[output_file := csv_header :: rows]> (fs_files fs2)) in
          (match stopped with
           | None => Ok output_file
           | Some e => Raise e
           end, fs3)
      end
  end.

Record run : Type := Run {
  exit_code : Z;
  run_fs : filesystem;
  run_sent : list request
}.

(** [main()] on [sys.argv = argv], up to [sys.exit]. An exception that
    nothing catches ends the interpreter with status 1. *)
Definition main (fuel : nat) (argv : list string) (fs : filesystem) : option run :=
  if bool_decide (length argv < 2) then Some (Run 1 fs [])
  else
    let country := nth 1 argv "" in
    match fetch_country_data fuel country with
    | None => None
    | Some (users, sent) =>
        match save_to_csv country users "datasource" fs with
        | (Ok _, fs') => Some (Run 0 fs' sent)
        | (Raise _, fs') => Some (Run 1 fs' sent)
        end
    end.

End WithNetwork.

End FetchCountry.


(** ** fetch_data.py: all countries *)

Module FetchData.

(** How [subprocess.run] ends. *)
Inductive completion : Type :=
| Completed (returncode : Z)
| TimeoutExpired
| OtherException (message : string).

Record invocation : Type := Invocation { inv_args : list string; inv_timeout : Z }.

(** The tuple a unit returns: country, status, error. *)
Definition outcome : Type := string * string * option string.

Record summary : Type := Summary {
  submitted : list string;
  success_count : nat;
  failed_countries : list string;
  exit_code : Z
}.

Section WithEnvironment.

(** [str.title()] *)
Variable str_title : string → string.

(** [generate_rankings.CONTINENT_MAP]: country to continent. *)
Variable CONTINENT_MAP : list (string * string).

(** What running a command under a deadline ends with. *)
Variable subprocess_run : invocation → completion.

(** The order in which [as_completed] hands the futures back. *)
Variable as_completed : list outcome → list outcome.

Definition get_all_countries : list string :=
  let countries : gset string :=
    foldl (fun countries country => {[str_title country]} ∪ countries)
          ∅ (map fst CONTINENT_MAP) in
  merge_sort String.le (elements countries).

Definition large_countries : list string :=
  ["Brazil"; "India"; "United States"; "China"; "Germany";
   "United Kingdom"; "France"; "Canada"; "Japan"].

Definition deadline (country : string) : Z :=
  if bool_decide (country ∈ large_countries) then 900%Z else 120%Z.

(** The unit of work: its outcome, and the invocations it made. *)
Definition fetch_country_data (country : string) : outcome * list invocation :=
  let timeout := deadline country in
  let call := Invocation ["./cert-github.sh"; country] timeout in
  (match subprocess_run call with
   | Completed returncode =>
       if (returncode =? 0)%Z then (country, "success", None)
       else (country, "failed", Some ("Exit code: " +:+ pretty returncode))
   | TimeoutExpired =>
       (country, "failed", Some ("Timeout (" +:+ pretty timeout +:+ "s)"))
   | OtherException message => (country, "failed", Some message)
   end, [call]).

(** The body of the loop over the completed futures. *)
Definition tally (acc : nat * list string) (o : outcome) : nat * list string :=
  let '(country, status, _) := o in
  if String.eqb status "success" then (S acc.1, acc.2)
  else (acc.1, acc.2 ++ [country]).

Definition main : summary :=
  let countries := get_all_countries in
  let futures := map (fun country => (fetch_country_data country).1) countries in
  let '(success_count, failed_countries) :=
    foldl tally (0, []) (as_completed futures) in
  Summary countries success_count failed_countries
          (if bool_decide (length failed_countries = 0) then 0%Z else 1%Z).

End WithEnvironment.

End FetchData.

(** ** The data model of the specification

    The typed view the specification takes of the payloads; the properties
    below relate it to the objects the code handles. *)

(** [obj.get(k, default)] on a dict. *)
Definition field (d : dict) (k : string) (default : json) : json :=
  from_option id default (dict_get k d).

(** A badge descriptor: an issuer name and a badge name. *)
Record badge_descriptor : Type := BadgeDescriptor {
  issuer_name : string;
  badge_name : string
}.

(** The entries that count toward the secondary total. *)
Definition counts_as_github (e : badge_descriptor) : bool :=
  String.eqb (issuer_name e) "Microsoft" && substringb "GitHub" (badge_name e).

(** The badge object [badge] carries the descriptor [e] under
    [external_badge]; a name that is absent reads as the empty string. *)
Definition describes (e : badge_descriptor) (badge : json) : bool :=
  match badge with
  | JDict d =>
      match field d "external_badge" (JDict []) with
      | JDict eb =>
          py_eq_str (field eb "issuer_name" (JStr "")) (issuer_name e)
          && py_eq_str (field eb "badge_name" (JStr "")) (badge_name e)
      | _ => false
      end
  | _ => false
  end.

(** The primary badge count of a user record, 0 when absent. *)
Definition primary_count (user : dict) : option Z :=
  match field user "badge_count" (JInt 0) with
  | JInt z => Some z
  | JBool b => Some (if b then 1 else 0)%Z
  | _ => None
  end.

(** [user'] is the record [user] after the fetch: when [user] has an id,
    its badge count is the primary count plus the count of the lookup. *)
Definition badge_count_added (http : request → response) (py_repr : json → string)
    (user user' : json) : Prop :=
  ∃ d d', user = JDict d ∧ user' = JDict d'
    ∧ (py_truthy (field d "id" JNull) = true →
       ∃ primary, primary_count d = Some primary
         ∧ dict_get "badge_count" d'
           = Some (JInt (primary
                + (FetchCountry.fetch_github_external_badges http py_repr
                     (field d "id" JNull)).1))).

(** A lookup that fails: timeout or transport error, error status, or a
    body that does not parse. *)
Definition lookup_failed (r : response) : bool :=
  match r with
  | Body _ => false
  | _ => true
  end.

Definition is_record (v : json) : bool :=
  match v with
  | JDict _ => true
  | _ => false
  end.

(** How the [try] block of the page loop ends on page [page]. *)
Definition page_result (http : request → response) (py_repr : json → string)
    (country : string) (page : nat) : res (option (list json)) :=
  (FetchCountry.fetch_page http py_repr country page).1.

(** The page ends the pagination: it has no users, or it failed. *)
Definition page_ends (r : res (option (list json))) : bool :=
  match r with
  | Ok (Some _) => false
  | _ => true
  end.

Definition page_users (r : res (option (list json))) : list json :=
  match r with
  | Ok (Some users) => users
  | _ => []
  end.

(** The users of pages [first], ..., [first + count - 1], page after page. *)
Definition users_of_pages (http : request → response) (py_repr : json → string)
    (country : string) (first count : nat) : list json :=
  concat (map (fun k => page_users (page_result http py_repr country k))
              (seq first count)).

(** A user record as the directory documents it: an object whose badge
    count, when the record has an id, is an integer or absent. *)
Definition well_formed_user (user : json) : bool :=
  match user with
  | JDict d =>
      negb (py_truthy (field d "id" JNull))
      || bool_decide (is_Some (primary_count d))
  | _ => false
  end.

(** The page has an empty user sequence. *)
Definition empty_page (r : response) : bool :=
  match r with
  | Body (JDict d) =>
      match field d "data" (JList []) with
      | JList [] => true
      | _ => false
      end
  | _ => false
  end.

(** The row of the table for a user record: absent names read as the
    empty string, an absent badge count as 0. *)
Definition expected_row (user : dict) : list json :=
  [field user "first_name" (JStr ""); field user "middle_name" (JStr "");
   field user "last_name" (JStr ""); field user "badge_count" (JInt 0)].

(** The file name of a country: lowercased, spaces turned into hyphens. *)
Definition slug (str_lower : string → string) (country : string) : string :=
  replace_char " " "-" (str_lower country).

(** Every character of [s] passes [p]. *)
Fixpoint string_forall (p : ascii → bool) (s : string) : bool :=
  match s with
  | "" => true
  | String a s' => p a && string_forall p s'
  end.

Definition not_space (a : ascii) : bool := negb (Ascii.eqb a " ").
Definition not_slash (a : ascii) : bool := negb (Ascii.eqb a "/").

(** The table of [country] can be written under [output_dir]: the file name
    has no "/", the directory is named, neither it nor a directory above it
    is a regular file, and the path of the table is not a directory. *)
Definition can_write (str_lower : string → string) (fs : filesystem)
    (output_dir country : string) : bool :=
  string_forall not_slash (slug str_lower country)
  && negb (String.eqb output_dir "")
  && negb (existsb (is_file fs) (output_dir :: ancestors output_dir))
  && negb (bool_decide
             (FetchCountry.output_path str_lower output_dir country ∈ fs_dirs fs)).

(** The writer produces the file of the country with the header and the
    rows of the users. *)
Definition writes_table (str_lower : string → string) (country : string)
    (records : list dict) (output_dir : string) (fs : filesystem) : Prop :=
  let path := output_dir +:+ "/github-certs-" +:+ slug str_lower country +:+ ".csv" in
  let written :=
    FetchCountry.save_to_csv str_lower country (map JDict records) output_dir fs in
  written.1 = Ok path
  ∧ fs_files written.2 !! path
    = Some (FetchCountry.csv_header :: map expected_row records).

(** The users of a directory answer, as served. *)
Definition served_users (answer : response) : list json :=
  match answer with
  | Body (JDict d) =>
      match field d "data" (JList []) with
      | JList users => users
      | _ => []
      end
  | _ => []
  end.

(** A served record after the fetch: with an id, its badge count becomes
    the primary count plus the count of the external lookup; without one it
    is left as served. *)
Definition augmented (http : request → response) (py_repr : json → string)
    (user : json) : json :=
  match user with
  | JDict d =>
      if py_truthy (field d "id" JNull)
      then match primary_count d with
           | Some primary =>
               JDict (dict_set "badge_count"
                        (JInt (primary
                           + (FetchCountry.fetch_github_external_badges http py_repr
                                (field d "id" JNull)).1)) d)
           | None => user
           end
      else user
  | _ => user
  end.

(** The augmented users of the pages [first], ..., [first + count - 1] as
    the directory serves them, page after page. *)
Definition served_pages (http : request → response) (py_repr : json → string)
    (country : string) (first count : nat) : list json :=
  concat (map (fun k =>
                 map (augmented http py_repr)
                     (served_users (http (Request (FetchCountry.page_url country k) 30))))
              (seq first count)).

(** A record the fetch cannot handle: it is not an object, or it has an id
    and a badge count that nothing can be added to. *)
Definition raising_record (user : json) : bool :=
  match user with
  | JDict d =>
      py_truthy (field d "id" JNull)
      && match field d "badge_count" (JInt 0) with
         | JNull | JStr _ | JList _ | JDict _ => true
         | _ => false
         end
  | _ => true
  end.

(** An answer of the directory that ends the pagination: the request
    failed, the body is not an object, its [data] is not an array, the array
    is empty, or one of its records cannot be handled. *)
Definition ending_answer (answer : response) : bool :=
  match answer with
  | Body (JDict d) =>
      match field d "data" (JList []) with
      | JList [] => true
      | JList users => existsb raising_record users
      | _ => true
      end
  | _ => true
  end.

(** The pagination is left only at a page that is empty or whose request
    failed. *)
Definition ends_only_when_empty_or_failed (http : request → response)
    (py_repr : json → string) (country : string) : Prop :=
  ∀ fuel users sent,
    FetchCountry.fetch_country_data http py_repr fuel country = Some (users, sent) →
    ∃ page,
      let answer := http (Request (FetchCountry.page_url country page) 30) in
      empty_page answer = true ∨ lookup_failed answer = true.

(** The lookup returns 0 for every status code outside 200 to 299. *)
Definition zero_unless_2xx (server : request → reply) (py_repr : json → string)
    (user_id : json) : Prop :=
  ∀ status_code body,
    server (Request (FetchCountry.external_badges_url py_repr user_id) 10)
    = Reply status_code body →
    ¬ (200 ≤ status_code < 300)%Z →
    (FetchCountry.fetch_github_external_badges
       (fun rq => requests_outcome (server rq)) py_repr user_id).1 = 0%Z.

(** A run that ends does so with 1 exactly when the argument is missing. *)
Definition exit_1_iff_argument_missing (http : request → response)
    (py_repr : json → string) (str_lower : string → string) (fuel : nat)
    (argv : list string) (fs : filesystem) : Prop :=
  ∀ r, FetchCountry.main http py_repr str_lower fuel argv fs = Some r →
       (FetchCountry.exit_code r = 1%Z ↔ length argv < 2).

(** The writer emits the record with badge_count 0. *)
Definition written_with_zero_count (user : dict) : Prop :=
  ∃ first_name middle_name last_name,
    FetchCountry.csv_row (JDict user)
    = Ok [first_name; middle_name; last_name; JInt 0].

(** The invocation a unit makes for a country. *)
Definition unit_call (country : string) : FetchData.invocation :=
  FetchData.Invocation ["./cert-github.sh"; country] (FetchData.deadline country).

(** The outcome is failed("timeout"). *)
Definition recorded_as_timeout (o : FetchData.outcome) : Prop :=
  o.1.2 = "failed" ∧ o.2 = Some "timeout".

(** The unit did not succeed. *)
Definition unit_failed (o : FetchData.outcome) : bool :=
  negb (String.eqb o.1.2 "success").

(** ** A small world to run the code in

    The directory knows one country, "Brazil": a first page with two
    records, the second without an id, and an empty second page. The user
    with id 7 has two external badges, one of which counts. Every other
    request fails. *)

Definition demo_repr (v : json) : string := "".

Definition demo_badges : list json :=
  [JDict [("external_badge",
           JDict [("badge_name", JStr "GitHub Foundations");
                  ("issuer_name", JStr "Microsoft")])];
   JDict [("external_badge",
           JDict [("badge_name", JStr "Azure Fundamentals");
                  ("issuer_name", JStr "Microsoft")])]].

Definition demo_entries : list badge_descriptor :=
  [BadgeDescriptor "Microsoft" "GitHub Foundations";
   BadgeDescriptor "Microsoft" "Azure Fundamentals"].

Definition demo_ada : dict :=
  [("id", JInt 7); ("first_name", JStr "Ada"); ("last_name", JStr "Lovelace");
   ("badge_count", JInt 2)].

Definition demo_bob : dict := [("first_name", JStr "Bob"); ("badge_count", JInt 5)].

Definition demo_http (rq : request) : response :=
  if String.eqb (req_url rq) (FetchCountry.page_url "Brazil" 1)
  then Body (JDict [("data", JList [JDict demo_ada; JDict demo_bob])])
  else if String.eqb (req_url rq) (FetchCountry.page_url "Brazil" 2)
  then Body (JDict [("data", JList [])])
  else if String.eqb (req_url rq) (FetchCountry.external_badges_url demo_repr (JInt 7))
  then Body (JDict [("data", JList demo_badges)])
  else ConnectionFailed.

(** The first page of "Brazil" after the fetch. *)
Definition demo_page_after : list json :=
  [JDict [("id", JInt 7); ("first_name", JStr "Ada"); ("last_name", JStr "Lovelace");
          ("badge_count", JInt 3)];
   JDict demo_bob].

Definition demo_fs : filesystem := Filesystem ∅ ∅.

Definition demo_map : list (string * string) :=
  [("peru", "South America"); ("brazil", "South America");
   ("BRAZIL", "South America")].

(** Large countries run into their deadline, the others end with code 0. *)
Definition demo_run (call : FetchData.invocation) : FetchData.completion :=
  if (FetchData.inv_timeout call =? 900)%Z then FetchData.TimeoutExpired
  else FetchData.Completed 0.

(** ** Further notions used below *)

(** The request the fetch sends for one user record: one lookup when the
    record is an object with a truthy id, none otherwise. *)
Definition lookup_of (py_repr : json → string) (user : json) : list request :=
  match user with
  | JDict d =>
      if py_truthy (field d "id" JNull)
      then [Request (FetchCountry.external_badges_url py_repr (field d "id" JNull)) 10]
      else []
  | _ => []
  end.

(** The requests of the [try] blocks of pages [first], ..., [first + count - 1]. *)
Definition requests_of_pages (http : request → response) (py_repr : json → string)
    (country : string) (first count : nat) : list request :=
  concat (map (fun k => (FetchCountry.fetch_page http py_repr country k).2)
              (seq first count)).

(** The loop body of the lookup raises on this badge. *)
Definition malformed_badge (badge : json) : bool :=
  match FetchCountry.is_github_badge badge with
  | Raise _ => true
  | Ok _ => false
  end.

(** A service that answers every request with two badges, the first of
    which counts and the second of which is [null]. *)
Definition demo_http_malformed (rq : request) : response :=
  Body (JDict [("data",
    JList [JDict [("external_badge",
                   JDict [("badge_name", JStr "GitHub Actions");
                          ("issuer_name", JStr "Microsoft")])];
           JNull])]).

(** A service that answers every request with an empty array. *)
Definition demo_http_array (rq : request) : response := Body (JList []).

(** A service whose every answer is one user with id 7 and a badge count
    of [null]. *)
Definition demo_http_null (rq : request) : response :=
  Body (JDict [("data", JList [JDict [("id", JInt 7); ("badge_count", JNull)]])]).

(** The wire behind [demo_http], every response with status 200. *)
Definition demo_server (rq : request) : reply :=
  match demo_http rq with
  | Body data => Reply 200 (Some data)
  | _ => NoReply
  end.

(** The same wire, answering with status 304. *)
Definition demo_server_304 (rq : request) : reply :=
  match demo_http rq with
  | Body data => Reply 304 (Some data)
  | _ => NoReply
  end.

(** * Properties *)

(** ** The built-ins *)

Example lower_united_states : ascii_lower "United States" = "united states".
Proof. reflexivity. Qed.

Example title_words : ascii_title "united kingdom" = "United Kingdom".
Proof. reflexivity. Qed.

Example title_mixed : ascii_title "cote d'ivoire" = "Cote D'Ivoire".
Proof. reflexivity. Qed.

Example pretty_page : pretty (12 : Z) = "12".
Proof. reflexivity. Qed.

Lemma prefix_spec (p s : string) :
  String.prefix p s = true ↔ ∃ post, s = p +:+ post.
Proof.
  revert p. induction s as [|b s IH]; intros [|a p]; simpl.
  - split; [intros _; by exists "" | done].
  - split; [done | intros [post H]; discriminate H].
  - split; [intros _; by exists (String b s) | done].
  - destruct (Ascii.ascii_dec a b) as [->|Hne].
    + rewrite IH. split; intros [post H]; exists post.
      * by rewrite H.
      * by injection H.
    + split; [done | intros [post H]; injection H; intros _ ?; by subst].
Qed.

(** [substringb] is containment: the needle sits between two strings. *)
Lemma substringb_spec (needle hay : string) :
  substringb needle hay = true ↔ ∃ pre post, hay = pre +:+ needle +:+ post.
Proof.
  induction hay as [|a hay IH]; cbn [substringb].
  - rewrite orb_false_r, prefix_spec. split.
    + intros [post H]. by exists "", post.
    + intros [pre [post H]]. destruct pre; [by exists post | discriminate H].
  - rewrite orb_true_iff, prefix_spec, IH. split.
    + intros [[post H] | [pre [post H]]].
      * by exists "", post.
      * exists (String a pre), post. by rewrite H.
    + intros [pre [post H]]. destruct pre as [|b pre].
      * left. by exists post.
      * right. exists pre, post. by injection H.
Qed.

Lemma dict_get_set_eq (k : string) (v : json) (d : dict) :
  dict_get k (dict_set k v d) = Some v.
Proof.
  induction d as [|[k' v'] d IH]; simpl.
  - by rewrite String.eqb_refl.
  - destruct (String.eqb k k') eqn:E; simpl; [by rewrite String.eqb_refl | by rewrite E].
Qed.

Lemma dict_get_set_ne (k k' : string) (v : json) (d : dict) :
  k ≠ k' → dict_get k' (dict_set k v d) = dict_get k' d.
Proof.
  intros Hne. induction d as [|[k0 v0] d IH]; simpl.
  - destruct (String.eqb k' k) eqn:E; [apply String.eqb_eq in E; by subst | done].
  - destruct (String.eqb k k0) eqn:E; simpl.
    + apply String.eqb_eq in E. subst k0.
      destruct (String.eqb k' k) eqn:E'; [apply String.eqb_eq in E'; by subst | done].
    + by rewrite IH.
Qed.

(** ** The request monad *)

Lemma bind_ok_inv {A B} (m : M A) (f : A → M B) (b : B) :
  (bind m f).1 = Ok b → ∃ a, m.1 = Ok a ∧ (f a).1 = Ok b.
Proof. unfold bind. destruct m.1 as [a|e]; [eauto | done]. Qed.

Lemma bind_ok {A B} (m : M A) (f : A → M B) (a : A) :
  m.1 = Ok a → bind m f = ((f a).1, m.2 ++ (f a).2).
Proof. unfold bind. by intros ->. Qed.

Lemma bind_raise {A B} (m : M A) (f : A → M B) (e : exn) :
  m.1 = Raise e → bind m f = (Raise e, m.2).
Proof. unfold bind. by intros ->. Qed.

Lemma mapM_ok_inv {A B} (f : A → M B) (l : list A) (l' : list B) :
  (mapM f l).1 = Ok l' → Forall2 (fun x y => (f x).1 = Ok y) l l'.
Proof.
  revert l'. induction l as [|x l IH]; intros l' H; simpl in H.
  - injection H as <-. constructor.
  - apply bind_ok_inv in H as [y [Hy H]].
    apply bind_ok_inv in H as [ys [Hys H]].
    injection H as <-. constructor; auto.
Qed.

Lemma filter_res_ok {A} (p : A → res bool) (q : A → bool) (l : list A) :
  Forall (fun x => p x = Ok (q x)) l → filter_res p l = Ok (List.filter q l).
Proof.
  induction 1 as [|x l Hx _ IH]; simpl; [done|].
  rewrite Hx, IH. simpl. by destruct (q x).
Qed.

(** ** The external-badge lookup *)

Lemma py_eq_str_true (v : json) (s : string) : py_eq_str v s = true → v = JStr s.
Proof. destruct v; simpl; try done. intros H. apply String.eqb_eq in H. by subst. Qed.

Section FetchCountryFacts.

Variable http : request → response.
Variable py_repr : json → string.

Abbreviation external_badges_url := (FetchCountry.external_badges_url py_repr).
Abbreviation external_badges_try := (FetchCountry.external_badges_try http py_repr).
Abbreviation fetch_github_external_badges :=
  (FetchCountry.fetch_github_external_badges http py_repr).
Abbreviation add_external_badges := (FetchCountry.add_external_badges http py_repr).
Abbreviation page_url := (FetchCountry.page_url).
Abbreviation fetch_page := (FetchCountry.fetch_page http py_repr).
Abbreviation fetch_pages := (FetchCountry.fetch_pages http py_repr).
Abbreviation fetch_country_data := (FetchCountry.fetch_country_data http py_repr).

Lemma is_github_badge_described (e : badge_descriptor) (badge : json) :
  describes e badge = true →
  FetchCountry.is_github_badge badge = Ok (counts_as_github e).
Proof.
  unfold describes, FetchCountry.is_github_badge, counts_as_github, field.
  destruct badge as [| | | | |d]; try done. simpl.
  destruct (from_option id (JDict []) (dict_get "external_badge" d))
    as [| | | | |eb]; try done. simpl.
  intros [Hi Hn]%andb_true_iff.
  apply py_eq_str_true in Hi, Hn. rewrite Hi, Hn. simpl.
  by destruct (String.eqb (issuer_name e) "Microsoft").
Qed.

Lemma filter_res_described (entries : list badge_descriptor) (badges : list json) :
  Forall2 (fun e b => describes e b = true) entries badges →
  ∃ kept, filter_res FetchCountry.is_github_badge badges = Ok kept
          ∧ length kept = length (List.filter counts_as_github entries).
Proof.
  induction 1 as [|e b entries badges Hd _ [kept [Hk Hlen]]]; simpl.
  - by exists [].
  - rewrite (is_github_badge_described e b Hd), Hk. simpl.
    destruct (counts_as_github e); eexists; split; try reflexivity; simpl; lia.
Qed.

Lemma external_lookup_sent (user_id : json) :
  (fetch_github_external_badges user_id).2 = [Request (external_badges_url user_id) 10].
Proof.
  unfold FetchCountry.fetch_github_external_badges, FetchCountry.external_badges_try,
    FetchCountry.requests_get_json, bind, lift. simpl.
  destruct (http _); simpl; try done.
  destruct (res_bind _ _); simpl; done.
Qed.

Lemma external_lookup_failed (user_id : json) :
  lookup_failed (http (Request (external_badges_url user_id) 10)) = true →
  (fetch_github_external_badges user_id).1 = 0%Z.
Proof.
  unfold FetchCountry.fetch_github_external_badges, FetchCountry.external_badges_try,
    FetchCountry.requests_get_json, bind, lift. simpl.
  by destruct (http _).
Qed.

(** The count when the answer is an object whose [data] is an array of
    badges that carry descriptors. *)
Lemma external_count_described (user_id : json) (data : dict) (badges : list json)
    (entries : list badge_descriptor) :
  http (Request (external_badges_url user_id) 10) = Body (JDict data) →
  field data "data" (JList []) = JList badges →
  Forall2 (fun e b => describes e b = true) entries badges →
  (fetch_github_external_badges user_id).1
  = Z.of_nat (length (List.filter counts_as_github entries)).
Proof.
  intros Hbody Hdata Hdesc.
  destruct (filter_res_described entries badges Hdesc) as [kept [Hk Hlen]].
  unfold FetchCountry.fetch_github_external_badges,
    FetchCountry.external_badges_try, FetchCountry.requests_get_json, bind, lift.
  rewrite Hbody. simpl. unfold field in Hdata. rewrite Hdata. simpl.
  rewrite Hk. simpl. by rewrite Hlen.
Qed.

(** ** One user, one page *)

Lemma requests_get_json_ok (url : string) (timeout : Z) (data : json) :
  (FetchCountry.requests_get_json http url timeout).1 = Ok data →
  http (Request url timeout) = Body data.
Proof.
  unfold FetchCountry.requests_get_json. simpl.
  destruct (http _); simpl; congruence.
Qed.

Lemma py_get_ok (obj : json) (k : string) (default v : json) :
  py_get obj k default = Ok v → ∃ d, obj = JDict d ∧ v = field d k default.
Proof. destruct obj; simpl; try done. intros [= <-]. eauto. Qed.

(** A record without a (truthy) id is left alone, and nothing is sent. *)
Lemma add_external_badges_no_id (d : dict) :
  py_truthy (field d "id" JNull) = false →
  add_external_badges (JDict d) = (Ok (JDict d), []).
Proof.
  intros Hid. unfold FetchCountry.add_external_badges, bind, lift, ret.
  simpl. fold (field d "id" JNull). by rewrite Hid.
Qed.

(** A record with an id gets the sum of its primary count and the count
    of the lookup, or the addition raises. *)
Lemma add_external_badges_id (d : dict) :
  py_truthy (field d "id" JNull) = true →
  (add_external_badges (JDict d)).1 =
    match primary_count d with
    | Some primary =>
        Ok (JDict (dict_set "badge_count"
              (JInt (primary + (fetch_github_external_badges (field d "id" JNull)).1)) d))
    | None => Raise TypeError
    end.
Proof.
  intros Hid. unfold FetchCountry.add_external_badges, bind, lift, ret, primary_count.
  simpl. fold (field d "id" JNull). rewrite Hid.
  destruct (fetch_github_external_badges (field d "id" JNull)) as [n sent]. simpl.
  fold (field d "badge_count" (JInt 0)).
  destruct (field d "badge_count" (JInt 0)) as [|b|z|?|?|?]; simpl; done.
Qed.

Lemma add_external_badges_ok (user user' : json) :
  (add_external_badges user).1 = Ok user' →
  ∃ d d', user = JDict d ∧ user' = JDict d'
    ∧ (py_truthy (field d "id" JNull) = false → d' = d)
    ∧ (py_truthy (field d "id" JNull) = true →
       ∃ primary, primary_count d = Some primary
         ∧ d' = dict_set "badge_count"
                  (JInt (primary + (fetch_github_external_badges (field d "id" JNull)).1)) d).
Proof.
  intros H. destruct user as [| | | | |d]; try done.
  destruct (py_truthy (field d "id" JNull)) eqn:Hid.
  - rewrite (add_external_badges_id d Hid) in H.
    destruct (primary_count d) as [primary|] eqn:Hp; [|done].
    injection H as <-. eexists d, _.
    split; [done|]. split; [done|]. split; [congruence|].
    intros _. by exists primary.
  - rewrite (add_external_badges_no_id d Hid) in H. injection H as <-.
    exists d, d. split; [done|]. split; [done|]. split; [done|congruence].
Qed.

(** What a page that brought users was made of. *)
Lemma fetch_page_some_inv (country : string) (page : nat) (users' : list json) :
  (fetch_page country page).1 = Ok (Some users') →
  ∃ (data : dict) (users : list json),
    http (Request (page_url country page) 30) = Body (JDict data)
    ∧ field data "data" (JList []) = JList users
    ∧ users ≠ []
    ∧ (mapM add_external_badges users).1 = Ok users'.
Proof.
  unfold FetchCountry.fetch_page. intros H.
  apply bind_ok_inv in H as [data [Hdata H]].
  apply requests_get_json_ok in Hdata.
  apply bind_ok_inv in H as [users [Husers H]]. simpl in Husers.
  apply py_get_ok in Husers as [d [-> ->]].
  destruct (py_truthy (field d "data" (JList []))) eqn:Htruthy; simpl in H; [|done].
  apply bind_ok_inv in H as [records [Hrecords H]]. simpl in Hrecords.
  apply bind_ok_inv in H as [records' [Hmap H]]. injection H as <-.
  exists d. destruct (field d "data" (JList [])) as [| | |s|l|d0]; try done.
  - destruct s as [|c s]; [done|]. injection Hrecords as <-.
    apply mapM_ok_inv in Hmap. inversion Hmap; done.
  - injection Hrecords as <-. exists l.
    split; [done|]. split; [done|]. split; [|done].
    intros ->. done.
  - destruct d0 as [|kv d0]; [done|]. injection Hrecords as <-.
    apply mapM_ok_inv in Hmap. inversion Hmap; done.
Qed.

(** C1. On a page that was fetched and processed, every user record that
    carries an id ends with badge_count = primary count (0 when the
    directory gave none) + the count the external lookup returned for that
    id; and that count is 0 whenever the lookup fails. *)
Theorem final_badge_count (country : string) (page : nat) :
  (∀ users' : list json,
     (fetch_page country page).1 = Ok (Some users') →
     ∃ (data : dict) (users : list json),
       http (Request (page_url country page) 30) = Body (JDict data)
       ∧ field data "data" (JList []) = JList users
       ∧ Forall2 (badge_count_added http py_repr) users users')
  ∧ (∀ user_id : json,
       lookup_failed (http (Request (external_badges_url user_id) 10)) = true →
       (fetch_github_external_badges user_id).1 = 0%Z).
Proof.
  split; [|apply external_lookup_failed].
  intros users' H.
  apply fetch_page_some_inv in H as (data & users & Hbody & Hdata & _ & Hmap).
  exists data, users. split; [done|]. split; [done|].
  apply mapM_ok_inv in Hmap.
  eapply Forall2_impl; [exact Hmap|]. simpl. intros user user' Hadd.
  unfold badge_count_added.
  apply add_external_badges_ok in Hadd as (d & d' & -> & -> & _ & Hid).
  exists d, d'. split; [done|]. split; [done|]. intros Htruthy.
  destruct (Hid Htruthy) as [primary [Hp ->]].
  exists primary. split; [done|]. apply dict_get_set_eq.
Qed.

(** ** The page loop *)

Abbreviation outcome := (page_result http py_repr).
Abbreviation users_from := (users_of_pages http py_repr).

Lemma users_of_pages_S (country : string) (first count : nat) :
  users_from country first (S count)
  = page_users (outcome country first) ++ users_from country (S first) count.
Proof. reflexivity. Qed.

Lemma fetch_pages_step (fuel : nat) (country : string) (page : nat)
    (all_users : list json) :
  page_ends (outcome country page) = false →
  fetch_pages (S fuel) country page all_users
  = match fetch_pages fuel country (S page)
            (all_users ++ page_users (outcome country page)) with
    | Some (result, sent') => Some (result, (fetch_page country page).2 ++ sent')
    | None => None
    end.
Proof.
  unfold page_result. simpl.
  destruct (fetch_page country page) as [[[users|]|e] sent]; simpl; done.
Qed.

Lemma fetch_pages_stop (fuel : nat) (country : string) (page : nat)
    (all_users : list json) :
  page_ends (outcome country page) = true →
  fetch_pages (S fuel) country page all_users
  = Some (all_users, (fetch_page country page).2).
Proof.
  unfold page_result. simpl.
  destruct (fetch_page country page) as [[[users|]|e] sent]; simpl; done.
Qed.

(** Enough fuel reaches the first page that ends the pagination. *)
Lemma fetch_pages_reaches (country : string) (count : nat) :
  ∀ (fuel page : nat) (all_users : list json),
    (∀ k, page ≤ k < page + count → page_ends (outcome country k) = false) →
    page_ends (outcome country (page + count)) = true →
    count < fuel →
    ∃ sent, fetch_pages fuel country page all_users
            = Some (all_users ++ users_from country page count, sent).
Proof.
  induction count as [|count IH]; intros fuel page all_users Hgo Hend Hfuel.
  - destruct fuel as [|fuel]; [lia|]. rewrite Nat.add_0_r in Hend.
    rewrite (fetch_pages_stop _ _ _ _ Hend). eexists.
    unfold users_of_pages. simpl.
    by rewrite app_nil_r.
  - destruct fuel as [|fuel]; [lia|].
    rewrite fetch_pages_step by (apply Hgo; lia).
    destruct (IH fuel (S page) (all_users ++ page_users (outcome country page)))
      as [sent Hsent].
    + intros k Hk. apply Hgo. lia.
    + by replace (S page + count) with (page + S count) by lia.
    + lia.
    + rewrite Hsent. eexists. by rewrite users_of_pages_S, app_assoc.
Qed.

(** A result comes from a page that ended the pagination. *)
Lemma fetch_pages_returned (country : string) (fuel : nat) :
  ∀ (page : nat) (all_users users : list json) (sent : list request),
    fetch_pages fuel country page all_users = Some (users, sent) →
    ∃ count, count < fuel
      ∧ (∀ k, page ≤ k < page + count → page_ends (outcome country k) = false)
      ∧ page_ends (outcome country (page + count)) = true
      ∧ users = all_users ++ users_from country page count.
Proof.
  induction fuel as [|fuel IH]; intros page all_users users sent H; [done|].
  destruct (page_ends (outcome country page)) eqn:Hend.
  - rewrite (fetch_pages_stop _ _ _ _ Hend) in H. injection H as <- <-.
    exists 0. rewrite Nat.add_0_r. split; [lia|]. split; [intros; lia|].
    split; [done|]. unfold users_of_pages. simpl.
    by rewrite app_nil_r.
  - rewrite (fetch_pages_step _ _ _ _ Hend) in H.
    destruct (fetch_pages fuel country (S page) _) as [[result sent']|] eqn:Hrest;
      [|done].
    injection H as <- <-.
    apply IH in Hrest as (count & Hlt & Hgo & Hstop & ->).
    exists (S count). split; [lia|]. split.
    + intros k Hk. destruct (decide (k = page)) as [->|Hne]; [done|].
      apply Hgo. lia.
    + split; [by replace (page + S count) with (S page + count) by lia|].
      by rewrite users_of_pages_S, app_assoc.
Qed.

(** Without such a page the loop uses up any fuel. *)
Lemma fetch_pages_runs_on (country : string) (fuel : nat) :
  ∀ (page : nat) (all_users : list json),
    (∀ k, page ≤ k → page_ends (outcome country k) = false) →
    fetch_pages fuel country page all_users = None.
Proof.
  induction fuel as [|fuel IH]; intros page all_users Hgo; [done|].
  rewrite fetch_pages_step by (apply Hgo; lia).
  rewrite IH; [done|]. intros k Hk. apply Hgo. lia.
Qed.

Lemma fetch_page_body (country : string) (page : nat) (d : dict) :
  http (Request (page_url country page) 30) = Body (JDict d) →
  outcome country page =
    match field d "data" (JList []) with
    | JList [] => Ok None
    | JList users =>
        match (mapM add_external_badges users).1 with
        | Ok users' => Ok (Some users')
        | Raise e => Raise e
        end
    | _ => outcome country page
    end.
Proof.
  intros Hbody. destruct (field d "data" (JList [])) as [| | | |users|] eqn:Hdata;
    try done.
  unfold page_result, FetchCountry.fetch_page, FetchCountry.requests_get_json,
    bind, lift, ret.
  simpl. rewrite Hbody. simpl. fold (field d "data" (JList [])). rewrite Hdata.
  destruct users as [|user users]; [done|].
  cbn [py_truthy length py_iter].
  rewrite bool_decide_eq_false_2 by done.
  cbn [negb fst].
  by destruct (mapM add_external_badges (user :: users)).1.
Qed.

Lemma fetch_page_failed (country : string) (page : nat) :
  lookup_failed (http (Request (page_url country page) 30)) = true →
  page_ends (outcome country page) = true.
Proof.
  unfold page_result, FetchCountry.fetch_page, FetchCountry.requests_get_json, bind.
  simpl. by destruct (http _).
Qed.

Lemma fetch_page_empty (country : string) (page : nat) :
  empty_page (http (Request (page_url country page) 30)) = true →
  outcome country page = Ok None.
Proof.
  intros H. destruct (http _) as [| | |[| | | | |d]] eqn:Hbody; try done.
  rewrite (fetch_page_body _ _ _ Hbody). simpl in H.
  by destruct (field d "data" (JList [])) as [| | | |[|? ?]|].
Qed.

Lemma mapM_well_formed (users : list json) :
  forallb well_formed_user users = true →
  ∃ users', (mapM add_external_badges users).1 = Ok users'.
Proof.
  induction users as [|user users IH]; simpl; [by exists []|].
  intros [Huser Husers]%andb_true_iff. destruct (IH Husers) as [users' Hrest].
  assert (∃ user', (add_external_badges user).1 = Ok user') as [user' Hadd].
  { destruct user as [| | | | |d]; try done. simpl in Huser.
    destruct (py_truthy (field d "id" JNull)) eqn:Hid.
    - rewrite (add_external_badges_id d Hid). simpl in Huser.
      apply bool_decide_eq_true in Huser as [primary ->]. eauto.
    - rewrite (add_external_badges_no_id d Hid). eauto. }
  exists (user' :: users'). unfold bind. rewrite Hadd. simpl.
  by rewrite Hrest.
Qed.

Lemma add_external_badges_well_formed (user user' : json) :
  (add_external_badges user).1 = Ok user' → well_formed_user user = true.
Proof.
  intros H. apply add_external_badges_ok in H as (d & d' & -> & _ & _ & Hid). simpl.
  destruct (py_truthy (field d "id" JNull)); [|done]. simpl.
  destruct (Hid eq_refl) as [primary [-> _]]. apply bool_decide_eq_true. eauto.
Qed.

Lemma mapM_ok_well_formed (users users' : list json) :
  (mapM add_external_badges users).1 = Ok users' →
  forallb well_formed_user users = true.
Proof.
  intros H. apply mapM_ok_inv in H.
  induction H as [|user user' users users' Hadd _ IH]; [done|]. simpl.
  by rewrite (add_external_badges_well_formed _ _ Hadd), IH.
Qed.

Lemma add_external_badges_augmented (user user' : json) :
  (add_external_badges user).1 = Ok user' → user' = augmented http py_repr user.
Proof.
  intros H. apply add_external_badges_ok in H as (d & d' & -> & -> & Hno & Hid).
  simpl. destruct (py_truthy (field d "id" JNull)).
  - destruct (Hid eq_refl) as (primary & -> & ->). done.
  - by rewrite Hno.
Qed.

Lemma mapM_ok_augmented (users users' : list json) :
  (mapM add_external_badges users).1 = Ok users' →
  users' = map (augmented http py_repr) users.
Proof.
  intros H. apply mapM_ok_inv in H.
  induction H as [|user user' users users' Hadd _ IH]; [done|]. simpl.
  by rewrite <- (add_external_badges_augmented _ _ Hadd), <- IH.
Qed.

(** The records the fetch cannot handle are those that are not well
    formed. *)
Lemma raising_record_spec (user : json) :
  raising_record user = negb (well_formed_user user).
Proof.
  destruct user as [| | | | |d]; try done. simpl. unfold primary_count.
  destruct (py_truthy (field d "id" JNull)); simpl; [|done].
  by destruct (field d "badge_count" (JInt 0)).
Qed.

Lemma existsb_raising_record (users : list json) :
  existsb raising_record users = negb (forallb well_formed_user users).
Proof.
  induction users as [|user users IH]; [done|]. simpl.
  rewrite IH, raising_record_spec. by destruct (well_formed_user user).
Qed.

(** A page ends the pagination exactly on an ending answer. *)
Lemma page_ends_ending (country : string) (page : nat) :
  page_ends (outcome country page)
  = ending_answer (http (Request (page_url country page) 30)).
Proof.
  destruct (page_ends (outcome country page)) eqn:Hend.
  - destruct (ending_answer _) eqn:Hanswer; [done|]. exfalso.
    unfold ending_answer in Hanswer.
    destruct (http _) as [| | |[| | | | |d]] eqn:Hbody; try done.
    rewrite (fetch_page_body _ _ _ Hbody) in Hend.
    destruct (field d "data" (JList [])) as [| | | |[|user users]|]; try done.
    rewrite existsb_raising_record in Hanswer. apply negb_false_iff in Hanswer.
    destruct (mapM_well_formed _ Hanswer) as [users' Hmap].
    by rewrite Hmap in Hend.
  - destruct (outcome country page) as [[users'|]|e] eqn:Hout; try done.
    apply fetch_page_some_inv in Hout as (d & users & -> & Hdata & Hne & Hmap).
    simpl. rewrite Hdata. destruct users as [|user users]; [done|].
    rewrite existsb_raising_record.
    by rewrite (mapM_ok_well_formed _ _ Hmap).
Qed.

(** A page that does not end the pagination brings the served users,
    augmented, in the order served. *)
Lemma page_users_served (country : string) (page : nat) :
  ending_answer (http (Request (page_url country page) 30)) = false →
  page_users (outcome country page)
  = map (augmented http py_repr)
        (served_users (http (Request (page_url country page) 30))).
Proof.
  rewrite <- page_ends_ending. intros Hgo.
  destruct (outcome country page) as [[users'|]|e] eqn:Hout; try done.
  apply fetch_page_some_inv in Hout as (d & users & -> & Hdata & _ & Hmap).
  simpl. rewrite Hdata. by apply mapM_ok_augmented.
Qed.

Lemma users_of_pages_served (country : string) (count : nat) :
  ∀ first,
    (∀ k, first ≤ k < first + count →
       ending_answer (http (Request (page_url country k) 30)) = false) →
    users_from country first count = served_pages http py_repr country first count.
Proof.
  induction count as [|count IH]; intros first Hgo; [done|].
  rewrite users_of_pages_S. unfold served_pages. cbn [seq map concat].
  rewrite page_users_served by (apply Hgo; lia). f_equal.
  apply IH. intros k Hk. apply Hgo. lia.
Qed.

(** C2, as the code has it. The page loop of the single-country fetch is
    left exactly at the first page whose answer ends the pagination: the
    request failed, the body is not an object, its [data] is not an array
    or is an empty one, or one record of the page cannot be handled (it is
    not an object, or it has an id and a badge count that is null, a
    string, an array or an object). The list returned is then made of the
    users the directory served on the pages before it, page after page and
    in the order served, each with its badge count augmented; it is a plain
    list, nothing is raised. While no answer ends the pagination the loop
    does not return. *)
Theorem pagination (country : string) :
  let answer := fun page => http (Request (page_url country page) 30) in
  (∀ count : nat,
     (∀ k, 1 ≤ k ≤ count → ending_answer (answer k) = false) →
     ending_answer (answer (S count)) = true →
     ∀ fuel, count < fuel →
       ∃ sent, fetch_country_data fuel country
               = Some (served_pages http py_repr country 1 count, sent))
  ∧ (∀ (fuel : nat) (users : list json) (sent : list request),
       fetch_country_data fuel country = Some (users, sent) →
       ∃ count, count < fuel
         ∧ (∀ k, 1 ≤ k ≤ count → ending_answer (answer k) = false)
         ∧ ending_answer (answer (S count)) = true
         ∧ users = served_pages http py_repr country 1 count)
  ∧ ((∀ k, 1 ≤ k → ending_answer (answer k) = false) →
     ∀ fuel, fetch_country_data fuel country = None).
Proof.
  intros answer. unfold FetchCountry.fetch_country_data. split; [|split].
  - intros count Hgo Hend fuel Hfuel.
    destruct (fetch_pages_reaches country count fuel 1 []) as [sent Hsent].
    + intros k Hk. rewrite page_ends_ending. apply Hgo. lia.
    + by rewrite page_ends_ending.
    + done.
    + exists sent. rewrite Hsent. simpl.
      rewrite users_of_pages_served; [done|]. intros k Hk. apply Hgo. lia.
  - intros fuel users sent H.
    apply fetch_pages_returned in H as (count & Hlt & Hgo & Hend & ->).
    assert (∀ k, 1 ≤ k ≤ count → ending_answer (answer k) = false) as Hgo'.
    { intros k Hk. unfold answer. rewrite <- page_ends_ending. apply Hgo. lia. }
    exists count. split; [done|]. split; [done|].
    split; [unfold answer; by rewrite <- page_ends_ending|]. simpl.
    apply users_of_pages_served. intros k Hk. apply Hgo'. lia.
  - intros Hgo fuel. apply fetch_pages_runs_on.
    intros k Hk. rewrite page_ends_ending. by apply Hgo.
Qed.

(** ** Records without an id *)

Lemma csv_row_record (user : dict) :
  FetchCountry.csv_row (JDict user) = Ok (expected_row user).
Proof. reflexivity. Qed.

(** C10, as the code has it. A user record whose id is absent or falsy
    causes no request and is left as it is; the writer then emits its
    badge_count unchanged, 0 when the field is absent, and the empty
    string for every absent name field. *)
Theorem record_without_id (user : dict) :
  py_truthy (field user "id" JNull) = false →
  add_external_badges (JDict user) = (Ok (JDict user), [])
  ∧ FetchCountry.csv_row (JDict user) = Ok (expected_row user)
  ∧ (dict_get "badge_count" user = None → written_with_zero_count user)
  ∧ (∀ count, dict_get "badge_count" user = Some count →
       nth_error (expected_row user) 3 = Some count)
  ∧ (∀ name, dict_get name user = None → field user name (JStr "") = JStr "").
Proof.
  intros Hid. split; [by apply add_external_badges_no_id|].
  split; [apply csv_row_record|]. split; [|split].
  - intros Habsent. unfold written_with_zero_count. rewrite csv_row_record.
    unfold expected_row, field at 4. rewrite Habsent. simpl. eauto.
  - intros count Hcount. unfold expected_row, field. simpl. by rewrite Hcount.
  - intros name Habsent. unfold field. by rewrite Habsent.
Qed.

End FetchCountryFacts.

(** ** The writer *)

Lemma write_rows_records (records : list dict) :
  FetchCountry.write_rows (map JDict records) = (map expected_row records, None).
Proof.
  induction records as [|user records IH]; [done|].
  cbn [map FetchCountry.write_rows]. rewrite csv_row_record. by rewrite IH.
Qed.

Lemma string_app_nil_r (s : string) : s +:+ "" = s.
Proof. induction s as [|a s IH]; [done|]. change (String a (s +:+ "") = String a s). by rewrite IH. Qed.

Lemma string_length_app (a b : string) :
  String.length (a +:+ b) = String.length a + String.length b.
Proof.
  induction a as [|c a IH]; [done|].
  change (S (String.length (a +:+ b)) = S (String.length a) + String.length b).
  by rewrite IH.
Qed.

Lemma string_forall_app (p : ascii → bool) (a b : string) :
  string_forall p (a +:+ b) = string_forall p a && string_forall p b.
Proof.
  induction a as [|c a IH]; [done|].
  change (p c && string_forall p (a +:+ b) = p c && string_forall p a && string_forall p b).
  by rewrite IH, andb_assoc.
Qed.

Lemma ancestors_app (a b : string) :
  ancestors (a +:+ b) = ancestors a ++ map (String.app a) (ancestors b).
Proof.
  induction a as [|c a IH].
  - change ("" +:+ b) with b. simpl. symmetry. apply map_id.
  - change (String c a +:+ b) with (String c (a +:+ b)). cbn [ancestors].
    rewrite IH, map_app, map_map, <- app_assoc. done.
Qed.

Lemma ancestors_no_slash (s : string) :
  string_forall not_slash s = true → ancestors s = [].
Proof.
  induction s as [|c s IH]; [done|]. simpl. intros [Hc Hs]%andb_true_iff.
  unfold not_slash in Hc. apply negb_true_iff in Hc. by rewrite Hc, IH.
Qed.

Lemma ancestors_shorter (p q : string) :
  q ∈ ancestors p → String.length q < String.length p.
Proof.
  revert q. induction p as [|c p IH]; intros q; simpl.
  - by intros ?%elem_of_nil.
  - intros [H|H]%elem_of_app.
    + destruct (Ascii.eqb c "/"); [|by apply elem_of_nil in H].
      apply list_elem_of_singleton in H as ->. simpl. lia.
    + apply list_elem_of_fmap in H as (q' & -> & Hq'). apply IH in Hq'. simpl. lia.
Qed.

Section Writer.

Variable str_lower : string → string.

Abbreviation output_path := (FetchCountry.output_path str_lower).
Abbreviation save_to_csv := (FetchCountry.save_to_csv str_lower).

(** The directories above the table of a country whose file name has no
    "/" are the output directory and those above it. *)
Lemma ancestors_output_path (output_dir country : string) :
  string_forall not_slash (slug str_lower country) = true →
  ancestors (output_path output_dir country) = ancestors output_dir ++ [output_dir].
Proof.
  intros Hslug. unfold FetchCountry.output_path. fold (slug str_lower country).
  rewrite ancestors_app.
  change ("/github-certs-" +:+ slug str_lower country +:+ ".csv")
    with (String "/" ("github-certs-" +:+ slug str_lower country +:+ ".csv")).
  cbn [ancestors].
  rewrite (ancestors_no_slash ("github-certs-" +:+ slug str_lower country +:+ ".csv")).
  - simpl. by rewrite string_app_nil_r.
  - by rewrite !string_forall_app, Hslug.
Qed.

Lemma output_path_longer (output_dir country : string) :
  String.length output_dir < String.length (output_path output_dir country).
Proof.
  unfold FetchCountry.output_path. rewrite string_length_app.
  change ("/github-certs-" +:+ replace_char " " "-" (str_lower country) +:+ ".csv")
    with (String "/" ("github-certs-" +:+ replace_char " " "-" (str_lower country)
                        +:+ ".csv")).
  simpl. lia.
Qed.

Lemma output_path_not_above (output_dir country : string) :
  output_path output_dir country ∉ output_dir :: ancestors output_dir.
Proof.
  pose proof (output_path_longer output_dir country) as Hlong.
  intros [Heq|Hin]%elem_of_cons.
  - rewrite Heq in Hlong. lia.
  - apply ancestors_shorter in Hin. lia.
Qed.

(** The writer on a table that can be written. *)
Lemma save_to_csv_can_write (country : string) (users : list json)
    (output_dir : string) (fs : filesystem) :
  can_write str_lower fs output_dir country = true →
  save_to_csv country users output_dir fs
  = (match (FetchCountry.write_rows users).2 with
     | None => Ok (output_path output_dir country)
     | Some e => Raise e
     end,
     Filesystem (list_to_set (output_dir :: ancestors output_dir) ∪ fs_dirs fs)
       (<[output_path output_dir country
          := FetchCountry.csv_header :: (FetchCountry.write_rows users).1]>
          (fs_files fs))).
Proof.
  unfold can_write.
  intros [[[Hslug Hdir%negb_true_iff]%andb_true_iff Hfiles%negb_true_iff]%andb_true_iff
            Hpath%negb_true_iff]%andb_true_iff.
  apply bool_decide_eq_false in Hpath.
  cbn [existsb] in Hfiles. apply orb_false_iff in Hfiles as [Hfile Habove].
  unfold FetchCountry.save_to_csv, makedirs. rewrite Hdir, Hfile, Habove.
  unfold open_w. cbn [fs_dirs fs_files].
  rewrite bool_decide_eq_false_2; cycle 1.
  { intros [Hin|Hin]%elem_of_union; [|done].
    apply elem_of_list_to_set in Hin. by apply output_path_not_above in Hin. }
  rewrite (ancestors_output_path _ _ Hslug).
  assert (existsb (is_file (Filesystem
            (list_to_set (output_dir :: ancestors output_dir) ∪ fs_dirs fs)
            (fs_files fs))) (ancestors output_dir ++ [output_dir]) = false) as ->.
  { rewrite existsb_app. simpl. unfold is_file in *. simpl.
    by rewrite Habove, Hfile. }
  assert (forallb (is_dir (Filesystem
            (list_to_set (output_dir :: ancestors output_dir) ∪ fs_dirs fs)
            (fs_files fs))) (ancestors output_dir ++ [output_dir]) = true) as ->.
  { apply forallb_forall. intros q Hq. unfold is_dir. cbn [fs_dirs].
    apply orb_true_iff. right. apply bool_decide_eq_true.
    apply elem_of_union_l, elem_of_list_to_set.
    apply in_app_or in Hq as [Hq|[->|[]]].
    - right. by apply list_elem_of_In.
    - left. }
  destruct (FetchCountry.write_rows users) as [rows stopped]. cbn [fst snd fs_dirs fs_files].
  by rewrite insert_insert_eq.
Qed.

(** Only [os.makedirs] and [open] can make the writer raise on records, and
    then no file is touched. *)
Lemma save_to_csv_raise (country : string) (records : list dict)
    (output_dir : string) (fs : filesystem) (e : exn) :
  (save_to_csv country (map JDict records) output_dir fs).1 = Raise e →
  fs_files (save_to_csv country (map JDict records) output_dir fs).2 = fs_files fs.
Proof.
  unfold FetchCountry.save_to_csv, makedirs.
  destruct (String.eqb output_dir ""); [done|].
  destruct (is_file fs output_dir); [done|].
  destruct (existsb (is_file fs) (ancestors output_dir)); [done|].
  unfold open_w. cbn [fs_dirs fs_files].
  destruct (bool_decide _); [done|]. destruct (existsb _ _); [done|].
  destruct (forallb _ _); [|done].
  rewrite write_rows_records. done.
Qed.


End Writer.

(** ** The orchestrator *)

Section FetchDataFacts.

Variable str_title : string → string.
Variable CONTINENT_MAP : list (string * string).
Variable subprocess_run : FetchData.invocation → FetchData.completion.
Variable as_completed : list FetchData.outcome → list FetchData.outcome.

Abbreviation get_all_countries := (FetchData.get_all_countries str_title CONTINENT_MAP).
Abbreviation unit := (FetchData.fetch_country_data subprocess_run).
Abbreviation orchestrate :=
  (FetchData.main str_title CONTINENT_MAP subprocess_run as_completed).

Lemma elem_of_countries (keys : list string) (acc : gset string) (name : string) :
  name ∈ foldl (fun countries country => {[str_title country]} ∪ countries) acc keys
  ↔ name ∈ acc ∨ ∃ key, key ∈ keys ∧ name = str_title key.
Proof.
  revert acc. induction keys as [|key keys IH]; intros acc; simpl.
  - split; [auto | intros [H | [key [H _]]]; [done | by apply elem_of_nil in H]].
  - rewrite IH. clear IH. split.
    + intros [[->%elem_of_singleton | H]%elem_of_union | [key' [Hin ->]]].
      * right. exists key. split; [left | done].
      * by left.
      * right. exists key'. split; [by right | done].
    + intros [H | [key' [Hin ->]]].
      * left. set_solver.
      * apply elem_of_cons in Hin as [-> | Hin]; [left; set_solver|].
        right. by exists key'.
Qed.

Lemma elem_of_get_all_countries (name : string) :
  name ∈ get_all_countries
  ↔ ∃ key, key ∈ map fst CONTINENT_MAP ∧ name = str_title key.
Proof.
  unfold FetchData.get_all_countries.
  rewrite merge_sort_Permutation, elem_of_elements, elem_of_countries.
  split; [|intros H; by right].
  intros [H|H]; [by apply not_elem_of_empty in H | exact H].
Qed.

Lemma get_all_countries_sorted :
  NoDup get_all_countries ∧ StronglySorted String.le get_all_countries.
Proof.
  unfold FetchData.get_all_countries. split.
  - rewrite merge_sort_Permutation. apply NoDup_elements.
  - apply StronglySorted_merge_sort; apply _.
Qed.

(** C7. A unit makes one invocation, of the script on the country, and its
    outcome is that of this invocation under a deadline of 900 when the
    country is in the large set and of 120 when it is not: the unit
    succeeds exactly when the process run under that deadline ends with
    code 0, and reports that deadline when the process outlives it. "Brazil"
    and "India" are in the set. *)
Theorem deadline_by_country (country : string) :
  let call := FetchData.Invocation ["./cert-github.sh"; country] in
  (country ∈ FetchData.large_countries →
     (unit country).2 = [call 900%Z]
     ∧ ((unit country).1.1.2 = "success"
        ↔ subprocess_run (call 900%Z) = FetchData.Completed 0)
     ∧ (subprocess_run (call 900%Z) = FetchData.TimeoutExpired →
        (unit country).1 = (country, "failed", Some "Timeout (900s)")))
  ∧ (country ∉ FetchData.large_countries →
     (unit country).2 = [call 120%Z]
     ∧ ((unit country).1.1.2 = "success"
        ↔ subprocess_run (call 120%Z) = FetchData.Completed 0)
     ∧ (subprocess_run (call 120%Z) = FetchData.TimeoutExpired →
        (unit country).1 = (country, "failed", Some "Timeout (120s)")))
  ∧ "Brazil" ∈ FetchData.large_countries
  ∧ "India" ∈ FetchData.large_countries.
Proof.
  intros call.
  assert (∀ deadline : Z, FetchData.deadline country = deadline →
            (unit country).2 = [call deadline]
            ∧ ((unit country).1.1.2 = "success"
               ↔ subprocess_run (call deadline) = FetchData.Completed 0)
            ∧ (subprocess_run (call deadline) = FetchData.TimeoutExpired →
               (unit country).1
               = (country, "failed", Some ("Timeout (" +:+ pretty deadline +:+ "s)"))))
    as Hunit.
  { intros deadline <-. unfold FetchData.fetch_country_data. subst call. simpl.
    split; [done|].
    destruct (subprocess_run _) as [code| |message]; simpl.
    - destruct (Z.eqb_spec code 0) as [->|Hne]; simpl.
      + split; done.
      + split; [split; [done | congruence] | done].
    - split; [split; done | done].
    - split; [split; done | done]. }
  split; [|split; [|split]].
  - intros Hin. apply Hunit. unfold FetchData.deadline. by rewrite bool_decide_eq_true_2.
  - intros Hout. apply Hunit. unfold FetchData.deadline. by rewrite bool_decide_eq_false_2.
  - apply list_elem_of_here.
  - apply list_elem_of_further, list_elem_of_here.
Qed.

(** C6, as the code has it. A unit always returns a triple of the
    country, a status and a reason. It is "success" without a reason
    exactly when the process ended with code 0. When the deadline passes
    the status is "failed" and the reason is "Timeout (<deadline>s)"; a
    non-zero code gives "failed" with "Exit code: <code>", any other
    exception "failed" with the text of the exception. *)
Theorem unit_outcome (country : string) :
  ∃ status reason,
    (unit country).1 = (country, status, reason)
    ∧ (status = "success" ∨ status = "failed")
    ∧ (status = "success" ↔ subprocess_run (unit_call country) = FetchData.Completed 0)
    ∧ (status = "success" → reason = None)
    ∧ (subprocess_run (unit_call country) = FetchData.TimeoutExpired →
         status = "failed"
         ∧ reason = Some ("Timeout (" +:+ pretty (FetchData.deadline country) +:+ "s)"))
    ∧ (∀ code, subprocess_run (unit_call country) = FetchData.Completed code →
         code ≠ 0%Z →
         status = "failed" ∧ reason = Some ("Exit code: " +:+ pretty code))
    ∧ (∀ message,
         subprocess_run (unit_call country) = FetchData.OtherException message →
         status = "failed" ∧ reason = Some message).
Proof.
  unfold FetchData.fetch_country_data. fold (unit_call country). simpl.
  destruct (subprocess_run (unit_call country)) as [code| |message].
  - destruct (Z.eqb_spec code 0) as [->|Hne]; eexists _, _; (split; [done|]).
    + split; [by left|]. split; [done|]. split; [done|]. split; [done|].
      split; [intros code [= <-] H; done | done].
    + split; [by right|]. split; [split; [done | congruence]|].
      split; [done|]. split; [done|]. split; [by intros ? [= <-] _ | done].
  - eexists _, _. split; [done|]. split; [by right|]. split; [done|].
    split; [done|]. split; [done|]. split; done.
  - eexists _, _. split; [done|]. split; [by right|]. split; [done|].
    split; [done|]. split; [done|]. split; [done | by intros ? [= <-]].
Qed.

End FetchDataFacts.

(** ** Exit codes *)

Lemma filter_bool_Permutation {A} (f : A → bool) (l l' : list A) :
  l ≡ₚ l' → List.filter f l ≡ₚ List.filter f l'.
Proof.
  induction 1 as [|x l l' _ IH|x y l|l l' l'' _ IH1 _ IH2]; simpl.
  - done.
  - destruct (f x); [by constructor | done].
  - destruct (f x), (f y); [apply perm_swap | done..].
  - by etrans.
Qed.

Section SingleCountryRun.

Variable http : request → response.
Variable py_repr : json → string.
Variable str_lower : string → string.

Lemma page_users_records (country : string) (page : nat) :
  Forall (fun user => is_record user = true)
         (page_users (page_result http py_repr country page)).
Proof.
  destruct (page_result http py_repr country page) as [[users'|]|e] eqn:H;
    simpl; try done.
  apply fetch_page_some_inv in H as (data & users & _ & _ & _ & Hmap).
  apply mapM_ok_inv in Hmap. induction Hmap as [|user user' ? ? Hadd _ IH]; [done|].
  constructor; [|done].
  by apply add_external_badges_ok in Hadd as (d & d' & _ & -> & _).
Qed.

(** What the fetch returns is a list of user records. *)
Lemma fetch_country_data_records (fuel : nat) (country : string)
    (users : list json) (sent : list request) :
  FetchCountry.fetch_country_data http py_repr fuel country = Some (users, sent) →
  ∃ records : list dict, users = map JDict records.
Proof.
  intros H. apply fetch_pages_returned in H as (count & _ & _ & _ & ->). simpl.
  assert (Forall (fun user => is_record user = true)
                 (users_of_pages http py_repr country 1 count)) as Hrec.
  { unfold users_of_pages. apply Forall_concat, Forall_forall.
    intros l [k [-> _]]%list_elem_of_fmap. apply page_users_records. }
  induction Hrec as [|user users Huser _ [records ->]]; [by exists []|].
  destruct user as [| | | | |d]; try done. by exists (d :: records).
Qed.

(** With enough fuel the fetch reaches the first answer that ends the
    pagination. *)
Lemma fetch_country_data_reaches (country : string) (count fuel : nat) :
  (∀ k, 1 ≤ k ≤ count →
     ending_answer (http (Request (FetchCountry.page_url country k) 30)) = false) →
  ending_answer (http (Request (FetchCountry.page_url country (S count)) 30)) = true →
  count < fuel →
  ∃ sent, FetchCountry.fetch_country_data http py_repr fuel country
          = Some (served_pages http py_repr country 1 count, sent).
Proof.
  intros Hgo Hend Hfuel. unfold FetchCountry.fetch_country_data.
  destruct (fetch_pages_reaches http py_repr country count fuel 1 []) as [sent Hsent].
  - intros k Hk. rewrite page_ends_ending. apply Hgo. lia.
  - by rewrite page_ends_ending.
  - done.
  - exists sent. rewrite Hsent. simpl.
    rewrite users_of_pages_served; [done|]. intros k Hk. apply Hgo. lia.
Qed.

Lemma served_pages_records (country : string) (first count : nat) :
  (∀ k, first ≤ k < first + count →
     ending_answer (http (Request (FetchCountry.page_url country k) 30)) = false) →
  ∃ records : list dict,
    served_pages http py_repr country first count = map JDict records.
Proof.
  intros Hgo. rewrite <- users_of_pages_served by done.
  assert (Forall (fun user => is_record user = true)
                 (users_of_pages http py_repr country first count)) as Hrec.
  { unfold users_of_pages. apply Forall_concat, Forall_forall.
    intros l [k [-> _]]%list_elem_of_fmap. apply page_users_records. }
  induction Hrec as [|user users Huser _ [records ->]]; [by exists []|].
  destruct user as [| | | | |d]; try done. by exists (d :: records).
Qed.

Lemma main_without_argument (fuel : nat) (argv : list string) (fs : filesystem) :
  length argv < 2 →
  FetchCountry.main http py_repr str_lower fuel argv fs
  = Some (FetchCountry.Run 1 fs []).
Proof. intros H. unfold FetchCountry.main. by rewrite bool_decide_eq_true_2. Qed.

Lemma main_with_argument (fuel : nat) (argv : list string) (fs : filesystem)
    (users : list json) (sent : list request) :
  2 ≤ length argv →
  FetchCountry.fetch_country_data http py_repr fuel (nth 1 argv "") = Some (users, sent) →
  FetchCountry.main http py_repr str_lower fuel argv fs
  = Some (FetchCountry.Run
            (match (FetchCountry.save_to_csv str_lower (nth 1 argv "") users
                      "datasource" fs).1 with
             | Ok _ => 0%Z
             | Raise _ => 1%Z
             end)
            (FetchCountry.save_to_csv str_lower (nth 1 argv "") users "datasource" fs).2
            sent).
Proof.
  intros Hlen Hfetch. unfold FetchCountry.main.
  rewrite bool_decide_eq_false_2 by lia. rewrite Hfetch.
  by destruct (FetchCountry.save_to_csv _ _ _ _ _) as [[path|e] fs'].
Qed.

Lemma main_runs_on (fuel : nat) (argv : list string) (fs : filesystem) :
  2 ≤ length argv →
  (∀ k, 1 ≤ k →
     ending_answer (http (Request (FetchCountry.page_url (nth 1 argv "") k) 30))
     = false) →
  FetchCountry.main http py_repr str_lower fuel argv fs = None.
Proof.
  intros Hlen Hgo. unfold FetchCountry.main, FetchCountry.fetch_country_data.
  rewrite bool_decide_eq_false_2 by lia.
  rewrite fetch_pages_runs_on; [done|].
  intros k Hk. rewrite page_ends_ending. by apply Hgo.
Qed.

End SingleCountryRun.

Section MultiCountryRun.

Variable str_title : string → string.
Variable CONTINENT_MAP : list (string * string).
Variable subprocess_run : FetchData.invocation → FetchData.completion.
Variable as_completed : list FetchData.outcome → list FetchData.outcome.

(** [as_completed] hands back every future once, in some order. *)
Hypothesis as_completed_all : ∀ futures, as_completed futures ≡ₚ futures.

Lemma foldl_tally (outcomes : list FetchData.outcome) :
  ∀ (count : nat) (failed : list string),
    foldl FetchData.tally (count, failed) outcomes
    = (count + length (List.filter (fun o => negb (unit_failed o)) outcomes),
       failed ++ map (fun o => o.1.1) (List.filter unit_failed outcomes)).
Proof.
  induction outcomes as [|[[country status] reason] outcomes IH];
    intros count failed; simpl.
  - by rewrite Nat.add_0_r, app_nil_r.
  - assert (unit_failed (country, status, reason)
            = negb (String.eqb status "success")) as Hfailed by done.
    rewrite !Hfailed.
    destruct (String.eqb status "success"); simpl; rewrite IH.
    + f_equal. lia.
    + by rewrite <- app_assoc.
Qed.

Lemma unit_failed_iff (country : string) :
  unit_failed (FetchData.fetch_country_data subprocess_run country).1 = false
  ↔ subprocess_run (unit_call country) = FetchData.Completed 0.
Proof.
  unfold FetchData.fetch_country_data, unit_failed. fold (unit_call country). simpl.
  destruct (subprocess_run (unit_call country)) as [code| |message]; simpl.
  - destruct (Z.eqb_spec code 0) as [->|Hne]; simpl; [done|].
    split; [done | congruence].
  - done.
  - done.
Qed.

Lemma unit_country (country : string) :
  (FetchData.fetch_country_data subprocess_run country).1.1.1 = country.
Proof.
  unfold FetchData.fetch_country_data. simpl.
  destruct (subprocess_run _) as [code| |message]; [|done..].
  by destruct (code =? 0)%Z.
Qed.

(** The tally of a run: the failed countries are those whose unit failed,
    in the order of completion, and every unit is counted once. *)
Lemma main_tally :
  let result := FetchData.main str_title CONTINENT_MAP subprocess_run as_completed in
  let countries := FetchData.get_all_countries str_title CONTINENT_MAP in
  FetchData.failed_countries result
  ≡ₚ List.filter
       (fun country =>
          unit_failed (FetchData.fetch_country_data subprocess_run country).1)
       countries
  ∧ FetchData.success_count result + length (FetchData.failed_countries result)
    = length countries.
Proof.
  intros result countries. subst result. unfold FetchData.main. fold countries.
  set (futures := map _ countries).
  rewrite foldl_tally. simpl.
  assert (∀ l, map (fun o : FetchData.outcome => o.1.1)
                 (List.filter unit_failed
                    (map (fun country =>
                       (FetchData.fetch_country_data subprocess_run country).1) l))
               = List.filter (fun country => unit_failed
                       (FetchData.fetch_country_data subprocess_run country).1) l)
    as Hmap.
  { induction l as [|c l IH]; [done|]. cbn [map List.filter].
    destruct (unit_failed _) eqn:E; [|done].
    cbn [map]. rewrite IH. f_equal. apply unit_country. }
  split.
  - rewrite <- Hmap. fold futures.
    apply Permutation_map, filter_bool_Permutation, as_completed_all.
  - rewrite length_map.
    rewrite <- (length_map (fun country =>
       (FetchData.fetch_country_data subprocess_run country).1) countries).
    fold futures. rewrite <- (Permutation_length (as_completed_all futures)).
    generalize (as_completed futures). intros l.
    induction l as [|o l IH]; simpl; [done|].
    destruct (unit_failed o); simpl; lia.
Qed.

Lemma filter_bool_nil {A} (f : A → bool) (l : list A) :
  List.filter f l = [] ↔ ∀ x, x ∈ l → f x = false.
Proof.
  induction l as [|x l IH]; simpl.
  - split; [intros _ x H; by apply elem_of_nil in H | done].
  - destruct (f x) eqn:E.
    + split; [done|]. intros H. specialize (H x (list_elem_of_here _ _)). congruence.
    + rewrite IH. split.
      * intros H y [->|Hy]%elem_of_cons; auto.
      * intros H y Hy. apply H. by right.
Qed.

Lemma main_exit_code :
  let result := FetchData.main str_title CONTINENT_MAP subprocess_run as_completed in
  (FetchData.exit_code result = 0%Z ↔ FetchData.failed_countries result = [])
  ∧ (FetchData.failed_countries result ≠ [] → FetchData.exit_code result = 1%Z)
  ∧ (FetchData.failed_countries result = []
     ↔ ∀ country, country ∈ FetchData.get_all_countries str_title CONTINENT_MAP →
         subprocess_run (unit_call country) = FetchData.Completed 0).
Proof.
  intros result. destruct main_tally as [Hperm _]. fold result in Hperm.
  split; [|split].
  - subst result. unfold FetchData.main.
    destruct (foldl FetchData.tally _ _) as [count failed]. simpl.
    destruct failed; simpl; done.
  - subst result. unfold FetchData.main.
    destruct (foldl FetchData.tally _ _) as [count failed]. simpl.
    destruct failed; simpl; done.
  - rewrite <- Permutation_nil_r, Hperm, Permutation_nil_r, filter_bool_nil.
    split; intros H country Hin; apply unit_failed_iff; auto.
Qed.

(** C9. The enumeration is the set of title-cased keys of the continent
    map, without duplicates and in ascending order, and the orchestrator
    runs one unit per element of it: the units submitted are the enumerated
    names, and whatever the order of completion each name is counted once,
    as a success or, when its own process did not end with code 0, among
    the failed countries. *)
Theorem countries_enumerated :
  let countries := FetchData.get_all_countries str_title CONTINENT_MAP in
  let result := FetchData.main str_title CONTINENT_MAP subprocess_run as_completed in
  (∀ name, name ∈ countries
     ↔ ∃ key, key ∈ map fst CONTINENT_MAP ∧ name = str_title key)
  ∧ NoDup countries
  ∧ StronglySorted String.le countries
  ∧ FetchData.submitted result = countries
  ∧ FetchData.failed_countries result
    ≡ₚ List.filter
         (fun country =>
            unit_failed (FetchData.fetch_country_data subprocess_run country).1)
         countries
  ∧ FetchData.success_count result + length (FetchData.failed_countries result)
    = length countries.
Proof.
  intros countries result.
  destruct (get_all_countries_sorted str_title CONTINENT_MAP) as [Hnodup Hsorted].
  destruct main_tally as [Hperm Hcount].
  split; [apply elem_of_get_all_countries|]. split; [done|]. split; [done|].
  split; [|by split].
  subst result. unfold FetchData.main. by destruct (foldl FetchData.tally _ _).
Qed.

End MultiCountryRun.


(** ** The lookup on the wire *)

Section Wire.

Variable server : request → reply.
Variable py_repr : json → string.

Abbreviation wire_count :=
  (fun user_id =>
     (FetchCountry.fetch_github_external_badges
        (fun rq => requests_outcome (server rq)) py_repr user_id).1).


End Wire.

(** ** The claims at concrete inputs *)

Example demo_countries :
  FetchData.get_all_countries ascii_title demo_map = ["Brazil"; "Peru"].
Proof. vm_compute. reflexivity. Qed.

Example demo_fetch :
  fst <$> FetchCountry.fetch_country_data demo_http demo_repr 3 "Brazil"
  = Some [JDict [("id", JInt 7); ("first_name", JStr "Ada");
                 ("last_name", JStr "Lovelace"); ("badge_count", JInt 3)];
          JDict demo_bob].
Proof. vm_compute. reflexivity. Qed.

Example demo_fetch_out_of_fuel :
  FetchCountry.fetch_country_data demo_http demo_repr 1 "Brazil" = None.
Proof. vm_compute. reflexivity. Qed.

Example demo_unit_timeout :
  (FetchData.fetch_country_data demo_run "Brazil").1
  = ("Brazil", "failed", Some "Timeout (900s)").
Proof. vm_compute. reflexivity. Qed.

Example demo_served_pages :
  served_pages demo_http demo_repr "Brazil" 1 1 = demo_page_after.
Proof. vm_compute. reflexivity. Qed.

Example demo_can_write :
  can_write ascii_lower demo_fs "datasource" "United States" = true
  ∧ can_write ascii_lower demo_fs "datasource" "Brazil" = true
  ∧ can_write ascii_lower demo_fs "datasource" "Trinidad/Tobago" = false.
Proof. vm_compute. done. Qed.

Lemma final_badge_count_witness :
  (FetchCountry.fetch_page demo_http demo_repr "Brazil" 1).1 = Ok (Some demo_page_after)
  ∧ ∃ (data : dict) (users : list json),
      demo_http (Request (FetchCountry.page_url "Brazil" 1) 30) = Body (JDict data)
      ∧ field data "data" (JList []) = JList users
      ∧ Forall2 (badge_count_added demo_http demo_repr) users demo_page_after.
Proof.
  split; [vm_compute; reflexivity|].
  apply (proj1 (final_badge_count demo_http demo_repr "Brazil" 1)).
  vm_compute; reflexivity.
Defined.

Lemma pagination_witness :
  ∃ sent, FetchCountry.fetch_country_data demo_http demo_repr 3 "Brazil"
          = Some (demo_page_after, sent).
Proof.
  rewrite <- demo_served_pages.
  apply (proj1 (pagination demo_http demo_repr "Brazil") 1).
  - intros k Hk. assert (k = 1) as -> by lia. vm_compute; reflexivity.
  - vm_compute; reflexivity.
  - lia.
Defined.

(** C2 as stated fails: a page that was served with a user on it ends the
    pagination when the badge count of that user is [null]. *)
Lemma served_page_ends_pagination :
  ¬ ends_only_when_empty_or_failed demo_http_null demo_repr "Brazil".
Proof.
  intros H.
  destruct (FetchCountry.fetch_country_data demo_http_null demo_repr 1 "Brazil")
    as [[users sent]|] eqn:Hfetch; [|vm_compute in Hfetch; discriminate Hfetch].
  destruct (H 1 users sent Hfetch) as [page [Hempty|Hfailed]].
  - vm_compute in Hempty. discriminate Hempty.
  - vm_compute in Hfailed. discriminate Hfailed.
Qed.







Lemma unit_outcome_witness :
  (FetchData.fetch_country_data demo_run "Brazil").1
  = ("Brazil", "failed", Some "Timeout (900s)").
Proof.
  destruct (unit_outcome demo_run "Brazil")
    as (status & reason & Heq & _ & _ & _ & Htimeout & _).
  destruct (Htimeout eq_refl) as [-> ->]. exact Heq.
Defined.

(** C6 as stated fails: the reason recorded for a deadline that passed is
    "Timeout (900s)", not "timeout". *)
Lemma timeout_reason_is_not_timeout :
  ¬ (∀ (subprocess_run : FetchData.invocation → FetchData.completion)
       (country : string),
       subprocess_run (unit_call country) = FetchData.TimeoutExpired →
       recorded_as_timeout (FetchData.fetch_country_data subprocess_run country).1).
Proof.
  intros H. destruct (H demo_run "Brazil" eq_refl) as [_ Hreason].
  vm_compute in Hreason. discriminate Hreason.
Qed.

Lemma deadline_by_country_witness :
  (FetchData.fetch_country_data demo_run "Brazil").1
  = ("Brazil", "failed", Some "Timeout (900s)")
  ∧ (FetchData.fetch_country_data demo_run "Peru").1.1.2 = "success".
Proof.
  split.
  - destruct (deadline_by_country demo_run "Brazil") as (Hlarge & _ & Hbrazil & _).
    destruct (Hlarge Hbrazil) as (_ & _ & Htimeout). by apply Htimeout.
  - destruct (deadline_by_country demo_run "Peru") as (_ & Hother & _).
    destruct Hother as (_ & Hsuccess & _).
    + apply (proj1 (bool_decide_eq_false _)). vm_compute; reflexivity.
    + by apply Hsuccess.
Defined.

Lemma countries_enumerated_witness :
  NoDup (FetchData.get_all_countries ascii_title demo_map)
  ∧ "Brazil" ∈ FetchData.get_all_countries ascii_title demo_map
  ∧ FetchData.success_count (FetchData.main ascii_title demo_map demo_run id)
    + length (FetchData.failed_countries (FetchData.main ascii_title demo_map demo_run id))
    = 2.
Proof.
  destruct (countries_enumerated ascii_title demo_map demo_run id ltac:(done))
    as (Hmem & Hnodup & _ & _ & _ & Hcount).
  split; [exact Hnodup|]. split.
  - apply Hmem. exists "BRAZIL". split; [|reflexivity].
    apply list_elem_of_further, list_elem_of_further, list_elem_of_here.
  - rewrite Hcount, demo_countries. reflexivity.
Defined.

Lemma record_without_id_witness :
  FetchCountry.add_external_badges demo_http demo_repr (JDict demo_bob)
  = (Ok (JDict demo_bob), [])
  ∧ FetchCountry.csv_row (JDict demo_bob) = Ok [JStr "Bob"; JStr ""; JStr ""; JInt 5].
Proof.
  destruct (record_without_id demo_http demo_repr demo_bob eq_refl) as (Hadd & Hrow & _).
  split; [exact Hadd | exact Hrow].
Defined.

(** C10 as stated fails: a record without an id that has a badge count is
    written with that count, not with 0. *)
Lemma record_without_id_keeps_count :
  ¬ (∀ user : dict,
       py_truthy (field user "id" JNull) = false → written_with_zero_count user).
Proof.
  intros H. destruct (H demo_bob eq_refl) as (first_name & middle_name & last_name & Hrow).
  vm_compute in Hrow. discriminate Hrow.
Qed.

(** * Further properties of the code *)

(** ** The requests a fetch sends *)

Lemma mapM_sent_ok {A B} (f : A → M B) (l : list A) (l' : list B) :
  (mapM f l).1 = Ok l' → (mapM f l).2 = flat_map (fun x => (f x).2) l.
Proof.
  revert l'. induction l as [|x l IH]; intros l' H; [done|].
  cbn [mapM flat_map] in *.
  apply bind_ok_inv in H as [y [Hy H]].
  apply bind_ok_inv in H as [ys [Hys _]].
  rewrite (bind_ok _ _ _ Hy). cbn [snd]. rewrite (bind_ok _ _ _ Hys). cbn [snd ret].
  by rewrite app_nil_r, (IH ys).
Qed.

Lemma bind_sent_Forall {A B} (P : request → Prop) (m : M A) (f : A → M B) :
  Forall P m.2 → (∀ a, Forall P (f a).2) → Forall P (bind m f).2.
Proof.
  intros Hm Hf. unfold bind. destruct m.1 as [a|e]; simpl; [|done].
  apply Forall_app. split; [done | apply Hf].
Qed.

Lemma mapM_sent_Forall {A B} (P : request → Prop) (f : A → M B) (l : list A) :
  (∀ x, Forall P (f x).2) → Forall P (mapM f l).2.
Proof.
  intros Hf. induction l as [|x l IH]; simpl; [constructor|].
  apply bind_sent_Forall; [apply Hf|]. intros y.
  apply bind_sent_Forall; [apply IH|]. intros ys. constructor.
Qed.

Lemma filter_bool_concat {A} (f : A → bool) (ls : list (list A)) :
  List.filter f (concat ls) = concat (map (List.filter f) ls).
Proof.
  induction ls as [|l ls IH]; [done|]. simpl. by rewrite List.filter_app, IH.
Qed.

Lemma filter_bool_none {A} (f : A → bool) (l : list A) :
  Forall (fun x => f x = false) l → List.filter f l = [].
Proof. induction 1 as [|x l Hx _ IH]; simpl; [done|]. by rewrite Hx. Qed.

Section Requests.

Variable http : request → response.
Variable py_repr : json → string.

Abbreviation add_external_badges := (FetchCountry.add_external_badges http py_repr).
Abbreviation fetch_page := (FetchCountry.fetch_page http py_repr).
Abbreviation fetch_pages := (FetchCountry.fetch_pages http py_repr).
Abbreviation outcome := (page_result http py_repr).

(** Whatever becomes of the record, the fetch sends its lookup and nothing
    else. *)
Lemma add_external_badges_sent (user : json) :
  (add_external_badges user).2 = lookup_of py_repr user.
Proof.
  destruct user as [| | | | |d]; try done.
  unfold FetchCountry.add_external_badges, lookup_of, bind, lift, ret. simpl.
  fold (field d "id" JNull). destruct (py_truthy (field d "id" JNull)); [|done].
  pose proof (external_lookup_sent http py_repr (field d "id" JNull)) as Hsent.
  destruct (FetchCountry.fetch_github_external_badges _ _ _) as [n sent].
  simpl in *. subst sent. fold (field d "badge_count" (JInt 0)).
  by destruct (field d "badge_count" (JInt 0)).
Qed.

(** X1. A page that brings users is paid for with the request of the page,
    with timeout 30, followed by one lookup per record that has an id, in
    the order of the page; records without an id cost nothing. *)
Theorem page_requests (country : string) (page : nat) (d : dict) (users : list json) :
  http (Request (FetchCountry.page_url country page) 30) = Body (JDict d) →
  field d "data" (JList []) = JList users →
  page_ends (outcome country page) = false →
  (fetch_page country page).2
  = Request (FetchCountry.page_url country page) 30 :: flat_map (lookup_of py_repr) users.
Proof.
  intros Hbody Hdata Hgo.
  destruct (outcome country page) as [[users'|]|e] eqn:Hout; try done.
  destruct (fetch_page_some_inv _ _ _ _ _ Hout) as (d0 & users0 & Hbody0 & Hdata0 & Hne & Hmap).
  rewrite Hbody in Hbody0. injection Hbody0 as <-.
  rewrite Hdata in Hdata0. injection Hdata0 as <-.
  pose proof (mapM_sent_ok _ _ _ Hmap) as Hsent.
  unfold FetchCountry.fetch_page, FetchCountry.requests_get_json, bind, lift, ret.
  simpl. rewrite Hbody. simpl. fold (field d "data" (JList [])). rewrite Hdata.
  destruct users as [|user users]; [done|].
  cbn [py_truthy length py_iter]. rewrite bool_decide_eq_false_2 by done.
  cbn [negb fst snd]. rewrite Hmap. cbn [fst snd].
  rewrite Hsent, !app_nil_r. f_equal.
  apply flat_map_ext. intros u. apply add_external_badges_sent.
Qed.

Lemma fetch_pages_sent (country : string) (fuel : nat) :
  ∀ (page : nat) (all_users users : list json) (sent : list request),
    fetch_pages fuel country page all_users = Some (users, sent) →
    ∃ count, count < fuel
      ∧ (∀ k, page ≤ k < page + count → page_ends (outcome country k) = false)
      ∧ page_ends (outcome country (page + count)) = true
      ∧ sent = requests_of_pages http py_repr country page (S count).
Proof.
  induction fuel as [|fuel IH]; intros page all_users users sent H; [done|].
  destruct (page_ends (outcome country page)) eqn:Hend.
  - rewrite (fetch_pages_stop _ _ _ _ _ _ Hend) in H. injection H as <- <-.
    exists 0. rewrite Nat.add_0_r. split; [lia|]. split; [intros; lia|].
    split; [done|]. unfold requests_of_pages. simpl. by rewrite app_nil_r.
  - rewrite (fetch_pages_step _ _ _ _ _ _ Hend) in H.
    destruct (fetch_pages fuel country (S page) _) as [[result sent']|] eqn:Hrest;
      [|done].
    injection H as <- <-.
    apply IH in Hrest as (count & Hlt & Hgo & Hstop & ->).
    exists (S count). split; [lia|]. split.
    + intros k Hk. destruct (decide (k = page)) as [->|Hne]; [done|].
      apply Hgo. lia.
    + split; [by replace (page + S count) with (S page + count) by lia|].
      reflexivity.
Qed.

(** A page costs its own request, with timeout 30, and lookups, with
    timeout 10, whether it brings users or not. *)
Lemma fetch_page_sent_shape (country : string) (page : nat) :
  ∃ lookups,
    (fetch_page country page).2
    = Request (FetchCountry.page_url country page) 30 :: lookups
    ∧ Forall (fun rq => req_timeout rq = 10%Z) lookups.
Proof.
  unfold FetchCountry.fetch_page.
  set (rest := fun data => bind _ _).
  unfold bind at 1. unfold FetchCountry.requests_get_json at 1 2 3. cbn [fst snd].
  assert (∀ data, Forall (fun rq => req_timeout rq = 10%Z) (rest data).2) as Hrest.
  { intros data. subst rest. apply bind_sent_Forall; [constructor|]. intros users.
    destruct (negb (py_truthy users)); [constructor|].
    apply bind_sent_Forall; [constructor|]. intros records.
    apply bind_sent_Forall; [|intros; constructor].
    apply mapM_sent_Forall. intros user. rewrite add_external_badges_sent.
    destruct user as [| | | | |d]; try constructor. simpl.
    destruct (py_truthy _); repeat constructor. }
  destruct (http _) as [| | |data]; try (by exists []).
  exists (rest data).2. split; [done | apply Hrest].
Qed.

(** X2. The requests of a whole fetch are those of page 1, then page 2, and
    so on up to and including the page that ended the pagination, each
    page followed by its lookups; so the directory is asked for the pages
    1, 2, ... in order, once each, and for nothing after the page that
    ended the loop. *)
Theorem run_requests (country : string) (fuel : nat) (users : list json)
    (sent : list request) :
  FetchCountry.fetch_country_data http py_repr fuel country = Some (users, sent) →
  ∃ count, count < fuel
    ∧ (∀ k, 1 ≤ k ≤ count → page_ends (outcome country k) = false)
    ∧ page_ends (outcome country (S count)) = true
    ∧ sent = requests_of_pages http py_repr country 1 (S count)
    ∧ List.filter (fun rq => (req_timeout rq =? 30)%Z) sent
      = map (fun k => Request (FetchCountry.page_url country k) 30) (seq 1 (S count)).
Proof.
  intros H. apply fetch_pages_sent in H as (count & Hlt & Hgo & Hend & ->).
  exists count. split; [done|]. split; [intros k Hk; apply Hgo; lia|].
  split; [done|]. split; [done|].
  unfold requests_of_pages. rewrite filter_bool_concat, map_map.
  generalize (seq 1 (S count)). intros pages.
  induction pages as [|k pages IH]; [done|]. cbn [map concat]. rewrite IH.
  destruct (fetch_page_sent_shape country k) as (lookups & -> & Hten).
  cbn [List.filter req_timeout]. rewrite Z.eqb_refl.
  rewrite filter_bool_none; [done|].
  eapply Forall_impl; [exact Hten|]. by intros rq ->.
Qed.

End Requests.

(** ** Payloads of an unexpected shape *)

Lemma res_bind_ok_inv {A B} (r : res A) (f : A → res B) (b : B) :
  res_bind r f = Ok b → ∃ a, r = Ok a ∧ f a = Ok b.
Proof. destruct r as [a|e]; simpl; [eauto | done]. Qed.

Lemma filter_res_length {A} (p : A → res bool) (l kept : list A) :
  filter_res p l = Ok kept → length kept ≤ length l.
Proof.
  revert kept. induction l as [|x l IH]; intros kept H; simpl in H.
  - by injection H as <-.
  - apply res_bind_ok_inv in H as [b [_ H]].
    apply res_bind_ok_inv in H as [kept' [Hk H]]. injection H as <-.
    apply IH in Hk. destruct b; simpl; lia.
Qed.

Lemma filter_res_raise {A} (p : A → res bool) (l : list A) :
  Exists (fun x => ∃ e, p x = Raise e) l → ∃ e, filter_res p l = Raise e.
Proof.
  induction 1 as [x l [e He]|x l _ [e IH]]; simpl.
  - rewrite He. simpl. eauto.
  - destruct (p x) as [b|e']; simpl; [|eauto]. rewrite IH. simpl. eauto.
Qed.

Section Shapes.

Variable http : request → response.
Variable py_repr : json → string.

Abbreviation external_badges_url := (FetchCountry.external_badges_url py_repr).
Abbreviation fetch_github_external_badges :=
  (FetchCountry.fetch_github_external_badges http py_repr).
Abbreviation add_external_badges := (FetchCountry.add_external_badges http py_repr).
Abbreviation outcome := (page_result http py_repr).

(** The count when the answer is an object whose [data] is an array. *)
Lemma external_count_body (user_id : json) (d : dict) (badges : list json) :
  http (Request (external_badges_url user_id) 10) = Body (JDict d) →
  field d "data" (JList []) = JList badges →
  (fetch_github_external_badges user_id).1
  = match filter_res FetchCountry.is_github_badge badges with
    | Ok kept => Z.of_nat (length kept)
    | Raise _ => 0%Z
    end.
Proof.
  intros Hbody Hdata.
  unfold FetchCountry.fetch_github_external_badges, FetchCountry.external_badges_try,
    FetchCountry.requests_get_json, bind, lift.
  rewrite Hbody. simpl. fold (field d "data" (JList [])). rewrite Hdata. simpl.
  by destruct (filter_res _ _).
Qed.

Lemma external_count_nonneg (user_id : json) :
  (0 ≤ (fetch_github_external_badges user_id).1)%Z.
Proof.
  unfold FetchCountry.fetch_github_external_badges.
  destruct (FetchCountry.external_badges_try http py_repr user_id) as [[n|e] sent] eqn:H;
    simpl; [|done].
  assert ((FetchCountry.external_badges_try http py_repr user_id).1 = Ok n) as Hn
    by (by rewrite H).
  unfold FetchCountry.external_badges_try in Hn.
  apply bind_ok_inv in Hn as [data [_ Hn]]. simpl in Hn.
  apply res_bind_ok_inv in Hn as [items [_ Hn]].
  apply res_bind_ok_inv in Hn as [badges [_ Hn]].
  apply res_bind_ok_inv in Hn as [kept [_ Hn]].
  injection Hn as <-. lia.
Qed.

(** X3. The count of the external lookup is never negative, and when the
    answer carries an array of badges it is at most the length of that
    array. *)
Theorem external_count_bounds (user_id : json) :
  (0 ≤ (fetch_github_external_badges user_id).1)%Z
  ∧ (∀ (d : dict) (badges : list json),
       http (Request (external_badges_url user_id) 10) = Body (JDict d) →
       field d "data" (JList []) = JList badges →
       ((fetch_github_external_badges user_id).1 ≤ Z.of_nat (length badges))%Z).
Proof.
  split; [apply external_count_nonneg|].
  intros d badges Hbody Hdata. rewrite (external_count_body _ _ _ Hbody Hdata).
  destruct (filter_res _ _) as [kept|e] eqn:Hk; [|lia].
  apply filter_res_length in Hk. lia.
Qed.

(** X4. One badge on which the loop body raises costs the user the whole
    count: the result is 0 whatever the other badges are. The body raises
    on a badge that is not an object, on one whose [external_badge] is not
    an object, and on one issued by "Microsoft" whose name is [null]; a
    badge of another issuer never makes it raise, its name is not looked
    at. *)
Theorem malformed_badge_voids_count (user_id : json) :
  (∀ (d : dict) (badges : list json),
     http (Request (external_badges_url user_id) 10) = Body (JDict d) →
     field d "data" (JList []) = JList badges →
     Exists (fun badge => malformed_badge badge = true) badges →
     (fetch_github_external_badges user_id).1 = 0%Z)
  ∧ (∀ badge, is_record badge = false → malformed_badge badge = true)
  ∧ (∀ d : dict, is_record (field d "external_badge" (JDict [])) = false →
       malformed_badge (JDict d) = true)
  ∧ (∀ d eb : dict,
       field d "external_badge" (JDict []) = JDict eb →
       field eb "issuer_name" (JStr "") = JStr "Microsoft" →
       field eb "badge_name" (JStr "") = JNull →
       malformed_badge (JDict d) = true)
  ∧ (∀ d eb : dict,
       field d "external_badge" (JDict []) = JDict eb →
       py_eq_str (field eb "issuer_name" (JStr "")) "Microsoft" = false →
       FetchCountry.is_github_badge (JDict d) = Ok false).
Proof.
  split; [|split; [|split; [|split]]].
  - intros d badges Hbody Hdata Hbad.
    rewrite (external_count_body _ _ _ Hbody Hdata).
    destruct (filter_res_raise FetchCountry.is_github_badge badges) as [e ->]; [|done].
    eapply Exists_impl; [exact Hbad|]. simpl. intros badge. unfold malformed_badge.
    destruct (FetchCountry.is_github_badge badge) as [b|e]; [done | eauto].
  - by intros [| | | | |d].
  - intros d. unfold malformed_badge, FetchCountry.is_github_badge. simpl.
    fold (field d "external_badge" (JDict [])).
    by destruct (field d "external_badge" (JDict [])).
  - intros d eb Heb Hissuer Hname.
    unfold malformed_badge, FetchCountry.is_github_badge. simpl.
    fold (field d "external_badge" (JDict [])). rewrite Heb. simpl.
    fold (field eb "badge_name" (JStr "")) (field eb "issuer_name" (JStr "")).
    by rewrite Hissuer, Hname.
  - intros d eb Heb Hissuer. unfold FetchCountry.is_github_badge. simpl.
    fold (field d "external_badge" (JDict [])). rewrite Heb. simpl.
    fold (field eb "badge_name" (JStr "")) (field eb "issuer_name" (JStr "")).
    by rewrite Hissuer.
Qed.

(** X5. A page with users is kept exactly when none of its records makes
    the fetch raise, that is, when none is a record that is not an object or
    a record with an id whose badge count is [null], a string, an array or
    an object. The page that is kept brings the served users, augmented, in
    the order served; one record that raises and the page ends the
    pagination, none of its users is returned. *)
Theorem page_kept_unless_record_raises (country : string) (page : nat) (d : dict)
    (users : list json) :
  http (Request (FetchCountry.page_url country page) 30) = Body (JDict d) →
  field d "data" (JList []) = JList users →
  users ≠ [] →
  (page_ends (outcome country page) = false
   ↔ existsb raising_record users = false)
  ∧ (existsb raising_record users = false →
     page_users (outcome country page) = map (augmented http py_repr) users)
  ∧ (existsb raising_record users = true →
     page_users (outcome country page) = []).
Proof.
  intros Hbody Hdata Hne.
  assert (ending_answer (http (Request (FetchCountry.page_url country page) 30))
          = existsb raising_record users) as Hanswer.
  { rewrite Hbody. simpl. rewrite Hdata. by destruct users. }
  pose proof (page_ends_ending http py_repr country page) as Hends.
  rewrite Hanswer in Hends.
  split; [by rewrite Hends|]. split.
  - intros Hgood. rewrite <- Hanswer in Hgood.
    rewrite (page_users_served http py_repr country page Hgood), Hbody. simpl.
    by rewrite Hdata.
  - intros Hbad. rewrite <- Hends in Hbad.
    by destruct (outcome country page) as [[users'|]|e].
Qed.

(** X6. An answer that parses but is not an object makes the page raise
    [AttributeError], which the loop takes like any failure; an object
    whose [data] is absent, [null], empty or otherwise falsy ends the
    pagination as an empty page does; and an object whose [data] is truthy
    but not an array ends it too. *)
Theorem page_answer_shapes (country : string) (page : nat) :
  let rq := Request (FetchCountry.page_url country page) 30 in
  (∀ v, http rq = Body v → is_record v = false →
     outcome country page = Raise AttributeError)
  ∧ (∀ d : dict, http rq = Body (JDict d) →
       py_truthy (field d "data" (JList [])) = false →
       outcome country page = Ok None)
  ∧ (∀ d : dict, http rq = Body (JDict d) →
       py_truthy (field d "data" (JList [])) = true →
       (∀ users, field d "data" (JList []) ≠ JList users) →
       page_ends (outcome country page) = true).
Proof.
  intros rq. split; [|split].
  - intros v Hbody Hv.
    unfold page_result, FetchCountry.fetch_page, FetchCountry.requests_get_json, bind.
    fold rq. rewrite Hbody. by destruct v.
  - intros d Hbody Hfalsy.
    unfold page_result, FetchCountry.fetch_page, FetchCountry.requests_get_json, bind.
    fold rq. rewrite Hbody. simpl. fold (field d "data" (JList [])).
    by rewrite Hfalsy.
  - intros d Hbody Htruthy Hshape.
    destruct (outcome country page) as [[users'|]|e] eqn:Hout; try done.
    apply fetch_page_some_inv in Hout as (d0 & users & Hbody0 & Hdata0 & _).
    fold rq in Hbody0. rewrite Hbody in Hbody0. injection Hbody0 as <-.
    by destruct (Hshape users).
Qed.

(** X7. The fetch touches nothing but the badge count of a record: every
    other field reads as before, so the three name cells of its row are
    those of the directory; and the badge count it leaves is never below
    the primary count. *)
Theorem other_fields_kept (user user' : json) :
  (add_external_badges user).1 = Ok user' →
  ∃ d d' : dict, user = JDict d ∧ user' = JDict d'
    ∧ (∀ k, k ≠ "badge_count" → dict_get k d' = dict_get k d)
    ∧ take 3 (expected_row d') = take 3 (expected_row d)
    ∧ (∀ primary, py_truthy (field d "id" JNull) = true →
         primary_count d = Some primary →
         ∃ total, dict_get "badge_count" d' = Some (JInt total)
                  ∧ (primary ≤ total)%Z).
Proof.
  intros H. apply add_external_badges_ok in H as (d & d' & -> & -> & Hno & Hid).
  exists d, d'. split; [done|]. split; [done|].
  assert (∀ k, k ≠ "badge_count" → dict_get k d' = dict_get k d) as Hkeep.
  { intros k Hk. destruct (py_truthy (field d "id" JNull)).
    - destruct (Hid eq_refl) as (primary & _ & ->). by apply dict_get_set_ne.
    - by rewrite Hno. }
  split; [exact Hkeep|]. split.
  - unfold expected_row, field. simpl. by rewrite !Hkeep.
  - intros primary Htruthy Hprimary.
    destruct (Hid Htruthy) as (primary' & Hp & ->).
    rewrite Hprimary in Hp. injection Hp as <-.
    eexists. split; [apply dict_get_set_eq|].
    pose proof (external_count_nonneg (field d "id" JNull)). lia.
Qed.

End Shapes.

(** ** The writer and the command line *)

Lemma write_rows_stops (records : list dict) (bad : json) (rest : list json) :
  is_record bad = false →
  FetchCountry.write_rows (map JDict records ++ bad :: rest)
  = (map expected_row records, Some AttributeError).
Proof.
  intros Hbad. induction records as [|user records IH].
  - simpl. by destruct bad.
  - cbn [map app FetchCountry.write_rows]. rewrite csv_row_record. by rewrite IH.
Qed.

Lemma replace_space_hyphen_no_space (s : string) :
  string_forall not_space (replace_char " " "-" s) = true.
Proof.
  induction s as [|a s IH]; [done|]. simpl. destruct (Ascii.eqb a " ") eqn:E.
  - change ("-" +:+ replace_char " " "-" s) with (String "-" (replace_char " " "-" s)).
    simpl. by rewrite IH.
  - simpl. unfold not_space at 1. by rewrite E, IH.
Qed.

Lemma replace_space_percent_no_space (s : string) :
  string_forall not_space (replace_char " " "%20" s) = true.
Proof.
  induction s as [|a s IH]; [done|]. simpl. destruct (Ascii.eqb a " ") eqn:E.
  - change ("%20" +:+ replace_char " " "%20" s)
      with (String "%" (String "2" (String "0" (replace_char " " "%20" s)))).
    simpl. by rewrite IH.
  - simpl. unfold not_space at 1. by rewrite E, IH.
Qed.

Section WriterAgain.

Variable str_lower : string → string.

Lemma output_path_slug (output_dir country1 country2 : string) :
  slug str_lower country1 = slug str_lower country2 →
  FetchCountry.output_path str_lower output_dir country1
  = FetchCountry.output_path str_lower output_dir country2.
Proof.
  intros Hslug. unfold FetchCountry.output_path.
  fold (slug str_lower country1) (slug str_lower country2). by rewrite Hslug.
Qed.

Lemma can_write_slug (fs : filesystem) (output_dir country1 country2 : string) :
  slug str_lower country1 = slug str_lower country2 →
  can_write str_lower fs output_dir country1 = can_write str_lower fs output_dir country2.
Proof.
  intros Hslug. unfold can_write.
  by rewrite Hslug, (output_path_slug output_dir _ _ Hslug).
Qed.

(** A table that could be written can be written again. *)
Lemma can_write_again (country : string) (users : list json) (output_dir : string)
    (fs : filesystem) :
  can_write str_lower fs output_dir country = true →
  can_write str_lower
    (FetchCountry.save_to_csv str_lower country users output_dir fs).2
    output_dir country = true.
Proof.
  intros Hcan. rewrite (save_to_csv_can_write str_lower _ _ _ _ Hcan). cbn [snd].
  revert Hcan. unfold can_write.
  intros [[[Hslug Hdir]%andb_true_iff Hfiles%negb_true_iff]%andb_true_iff
            Hpath%negb_true_iff]%andb_true_iff.
  apply bool_decide_eq_false in Hpath.
  rewrite Hslug, Hdir. cbn [andb fs_dirs].
  apply andb_true_iff. split.
  - apply negb_true_iff, not_true_iff_false. intros E.
    apply existsb_exists in E as (q & Hq & Hfile).
    assert (existsb (is_file fs) (output_dir :: ancestors output_dir) = true) as Habs.
    { apply existsb_exists. exists q. split; [done|].
      unfold is_file in *. cbn [fs_files] in Hfile.
      rewrite lookup_insert_ne in Hfile; [done|].
      intros <-. apply list_elem_of_In in Hq.
      by apply (output_path_not_above str_lower) in Hq. }
    congruence.
  - apply negb_true_iff, bool_decide_eq_false.
    intros [Hin|Hin]%elem_of_union; [|done].
    apply elem_of_list_to_set in Hin.
    by apply (output_path_not_above str_lower) in Hin.
Qed.




End WriterAgain.

Section CommandLine.

Variable http : request → response.
Variable py_repr : json → string.
Variable str_lower : string → string.



End CommandLine.

(** ** The tally *)

Section Tally.

Variable str_title : string → string.
Variable CONTINENT_MAP : list (string * string).
Variable subprocess_run : FetchData.invocation → FetchData.completion.
Variable as_completed : list FetchData.outcome → list FetchData.outcome.
Hypothesis as_completed_all : ∀ futures, as_completed futures ≡ₚ futures.

(** X15. Whatever the order of completion, the run counts every unit once:
    the failed countries are, up to order, the countries whose own process
    did not end with code 0, and successes and failures add up to the
    number of countries. A unit that fails or times out changes nothing
    for the others. *)
Theorem tally_complete :
  let result := FetchData.main str_title CONTINENT_MAP subprocess_run as_completed in
  let countries := FetchData.get_all_countries str_title CONTINENT_MAP in
  FetchData.failed_countries result
  ≡ₚ List.filter
       (fun country =>
          unit_failed (FetchData.fetch_country_data subprocess_run country).1)
       countries
  ∧ FetchData.success_count result + length (FetchData.failed_countries result)
    = length countries
  ∧ (∀ country, country ∈ FetchData.failed_countries result
       ↔ country ∈ countries
         ∧ subprocess_run (unit_call country) ≠ FetchData.Completed 0).
Proof.
  intros result countries.
  destruct (main_tally str_title CONTINENT_MAP subprocess_run as_completed
              as_completed_all) as [Hperm Hcount].
  fold result countries in Hperm, Hcount. split; [done|]. split; [done|].
  intros country. rewrite Hperm, list_elem_of_In, List.filter_In, <- list_elem_of_In.
  rewrite <- (unit_failed_iff subprocess_run country).
  destruct (unit_failed _); split; intros [? ?]; split; done.
Qed.

End Tally.

(** X16. With an empty continent map the run starts no unit, counts
    nothing and exits with 0. *)
Theorem no_countries (str_title : string → string)
    (subprocess_run : FetchData.invocation → FetchData.completion)
    (as_completed : list FetchData.outcome → list FetchData.outcome) :
  (∀ futures, as_completed futures ≡ₚ futures) →
  FetchData.main str_title [] subprocess_run as_completed = FetchData.Summary [] 0 [] 0.
Proof.
  intros Hall. unfold FetchData.main.
  assert (FetchData.get_all_countries str_title [] = []) as ->
    by (vm_compute; reflexivity).
  simpl. pose proof (Hall []) as Hnil. apply Permutation_nil_r in Hnil.
  by rewrite Hnil.
Qed.

(** ** The further properties at concrete inputs *)

Lemma page_requests_witness :
  (FetchCountry.fetch_page demo_http demo_repr "Brazil" 1).2
  = [Request (FetchCountry.page_url "Brazil" 1) 30;
     Request (FetchCountry.external_badges_url demo_repr (JInt 7)) 10].
Proof.
  apply (page_requests demo_http demo_repr "Brazil" 1
           [("data", JList [JDict demo_ada; JDict demo_bob])]
           [JDict demo_ada; JDict demo_bob]).
  - vm_compute; reflexivity.
  - reflexivity.
  - vm_compute; reflexivity.
Defined.

Lemma run_requests_witness :
  ∃ users sent count,
    FetchCountry.fetch_country_data demo_http demo_repr 3 "Brazil" = Some (users, sent)
    ∧ sent = requests_of_pages demo_http demo_repr "Brazil" 1 (S count)
    ∧ List.filter (fun rq => (req_timeout rq =? 30)%Z) sent
      = map (fun k => Request (FetchCountry.page_url "Brazil" k) 30) (seq 1 (S count)).
Proof.
  destruct (FetchCountry.fetch_country_data demo_http demo_repr 3 "Brazil")
    as [[users sent]|] eqn:H; [|vm_compute in H; discriminate H].
  destruct (run_requests demo_http demo_repr "Brazil" 3 users sent H)
    as (count & _ & _ & _ & Hsent & Hpages).
  by exists users, sent, count.
Defined.

Lemma external_count_bounds_witness :
  (0 ≤ (FetchCountry.fetch_github_external_badges demo_http demo_repr (JInt 7)).1 ≤ 2)%Z.
Proof.
  destruct (external_count_bounds demo_http demo_repr (JInt 7)) as [Hlow Hhigh].
  split; [exact Hlow|].
  apply (Hhigh [("data", JList demo_badges)] demo_badges).
  - vm_compute; reflexivity.
  - reflexivity.
Defined.

Lemma malformed_badge_voids_count_witness :
  (FetchCountry.fetch_github_external_badges demo_http_malformed demo_repr (JInt 7)).1
  = 0%Z.
Proof.
  destruct (malformed_badge_voids_count demo_http_malformed demo_repr (JInt 7))
    as [Hvoid _].
  eapply Hvoid; [reflexivity | reflexivity |].
  apply Exists_cons_tl, Exists_cons_hd. reflexivity.
Defined.

Lemma page_kept_unless_record_raises_witness :
  page_ends (page_result demo_http demo_repr "Brazil" 1) = false
  ∧ page_users (page_result demo_http_null demo_repr "Brazil" 1) = [].
Proof.
  split.
  - apply (page_kept_unless_record_raises demo_http demo_repr "Brazil" 1
             [("data", JList [JDict demo_ada; JDict demo_bob])]
             [JDict demo_ada; JDict demo_bob]).
    + vm_compute; reflexivity.
    + reflexivity.
    + discriminate.
    + reflexivity.
  - apply (page_kept_unless_record_raises demo_http_null demo_repr "Brazil" 1
             [("data", JList [JDict [("id", JInt 7); ("badge_count", JNull)]])]
             [JDict [("id", JInt 7); ("badge_count", JNull)]]).
    + vm_compute; reflexivity.
    + reflexivity.
    + discriminate.
    + reflexivity.
Defined.

Lemma page_answer_shapes_witness :
  page_result demo_http_array demo_repr "Brazil" 1 = Raise AttributeError.
Proof.
  destruct (page_answer_shapes demo_http_array demo_repr "Brazil" 1) as [Hshape _].
  by apply (Hshape (JList [])).
Defined.

Lemma other_fields_kept_witness :
  ∃ d' : dict,
    (FetchCountry.add_external_badges demo_http demo_repr (JDict demo_ada)).1
    = Ok (JDict d')
    ∧ dict_get "first_name" d' = dict_get "first_name" demo_ada.
Proof.
  destruct (FetchCountry.add_external_badges demo_http demo_repr (JDict demo_ada)).1
    as [user'|e] eqn:H; [|vm_compute in H; discriminate H].
  destruct (other_fields_kept demo_http demo_repr _ _ H)
    as (d & d' & Hd & -> & Hkeep & _).
  injection Hd as <-. exists d'. split; [done|]. apply Hkeep. discriminate.
Defined.






Lemma tally_complete_witness :
  FetchData.success_count (FetchData.main ascii_title demo_map demo_run id)
  + length (FetchData.failed_countries (FetchData.main ascii_title demo_map demo_run id))
  = 2.
Proof.
  destruct (tally_complete ascii_title demo_map demo_run id ltac:(done))
    as (_ & Hcount & _).
  rewrite Hcount, demo_countries. reflexivity.
Defined.

Lemma no_countries_witness :
  FetchData.main ascii_title [] demo_run id = FetchData.Summary [] 0 [] 0.
Proof. apply no_countries. done. Defined.
